(** * py-dns: the zone database loader (src/zone.py, src/db.py)

    A shallow embedding of the record model, the source identifiers, the
    zone node and the two loaders, followed by the properties of the
    specification that concern them.

    Python is dynamically typed, and several properties below depend on a
    value of an unexpected type reaching an operation.  The embedding
    therefore works over one universe [pyobj] of the Python values that occur
    in this program, and every operation says what it does on each of them.

    Interpreter assumed: CPython 3.12 or 3.13 (the sources use the [type]
    statement, and read [__annotations__] from a class [__dict__]). *)

From Stdlib Require Import ZArith NArith List String Ascii Bool Lia DecimalString.
Import ListNotations.
Local Open Scope string_scope.
Local Open Scope list_scope.

(** ** The record type registry (zone.py, [class RecordType(Enum)]) *)

Module RecordType.

Inductive t : Set := A | AAAA | CNAME | TXT | PTR.

Definition members : list t := [A; AAAA; CNAME; TXT; PTR].

Definition name (m : t) : string :=
  match m with
  | A => "A" | AAAA => "AAAA" | CNAME => "CNAME" | TXT => "TXT" | PTR => "PTR"
  end.

Definition eqb (x y : t) : bool :=
  match x, y with
  | A, A | AAAA, AAAA | CNAME, CNAME | TXT, TXT | PTR, PTR => true
  | _, _ => false
  end.

(** [RecordType[key]] for a string key: the member of that name, or
    [None] for the [KeyError]. *)
Definition getitem (key : string) : option t :=
  find (fun m => String.eqb (name m) key) members.

End RecordType.

(** ** Python values *)

(** An address object of the [ipaddress] library: the integer value, and for
    IPv6 the scope identifier. *)
Inductive ipaddr : Set :=
| IPv4 (ip : N)
| IPv6 (ip : N) (scope_id : option string).

(** The values of the program.  The first six constructors are what
    [json] decodes to (numbers restricted to integers: floating point is left
    out of the embedding); a string is the UTF-8 encoding of its text, one
    [ascii] for each byte; a dict is an association list read through its
    first binding of a key.  The instances of the classes of zone.py carry
    their attributes; [ttl] is the attribute that [BaseRecord] declares with
    the class-level default [None]. *)
#[warnings="-register-all"]
Inductive pyobj : Type :=
| PNone
| PBool (b : bool)
| PInt (n : Z)
| PStr (s : string)
| PList (items : list pyobj)
| PDict (items : list (string * pyobj))
| PEnum (m : RecordType.t)
| PAddr (ip : ipaddr)
| ARecord (ttl address ptr_record record_type : pyobj)
| AAAARecord (ttl address ptr_record record_type : pyobj)
| CNAMERecord (ttl target record_type : pyobj)
| TXTRecord (ttl text record_type : pyobj)
| PTRRecord (ttl host address record_type : pyobj)
| RecursionSource (address : pyobj)
| RequestSource (address : pyobj)
| Zone (namespace records recursion allow_sources subsets parent : pyobj).

(** The classes of zone.py, as the values that db.py passes around. *)
Inductive pyclass : Set :=
| CARecord | CAAAARecord | CCNAMERecord | CTXTRecord | CPTRRecord
| CRecursionSource | CRequestSource | CZone.

Definition class_of (o : pyobj) : option pyclass :=
  match o with
  | ARecord _ _ _ _ => Some CARecord
  | AAAARecord _ _ _ _ => Some CAAAARecord
  | CNAMERecord _ _ _ => Some CCNAMERecord
  | TXTRecord _ _ _ => Some CTXTRecord
  | PTRRecord _ _ _ _ => Some CPTRRecord
  | RecursionSource _ => Some CRecursionSource
  | RequestSource _ => Some CRequestSource
  | Zone _ _ _ _ _ _ => Some CZone
  | _ => None
  end.

Definition pyclass_eqb (c d : pyclass) : bool :=
  match c, d with
  | CARecord, CARecord | CAAAARecord, CAAAARecord | CCNAMERecord, CCNAMERecord
  | CTXTRecord, CTXTRecord | CPTRRecord, CPTRRecord
  | CRecursionSource, CRecursionSource | CRequestSource, CRequestSource
  | CZone, CZone => true
  | _, _ => false
  end.

(** [isinstance(o, c)]; no class of zone.py derives from another one. *)
Definition isinstance (o : pyobj) (c : pyclass) : bool :=
  match class_of o with
  | Some d => pyclass_eqb d c
  | None => false
  end.

Definition is_str (o : pyobj) : bool :=
  match o with PStr _ => true | _ => false end.

(** [isinstance(o, int)]: [bool] is a subclass of [int]. *)
Definition is_int (o : pyobj) : bool :=
  match o with PInt _ | PBool _ => true | _ => false end.

(** Truth value: [None], [False], [0], the empty string, list and dict are
    false; enum members, address objects and the dataclass instances define
    neither [__bool__] nor [__len__] and are true. *)
Definition truthy (o : pyobj) : bool :=
  match o with
  | PNone => false
  | PBool b => b
  | PInt n => negb (n =? 0)%Z
  | PStr s => negb (String.eqb s "")
  | PList l => match l with [] => false | _ => true end
  | PDict d => match d with [] => false | _ => true end
  | _ => true
  end.

(** [a or b] *)
Definition py_or (a b : pyobj) : pyobj := if truthy a then a else b.

Fixpoint dict_lookup (key : string) (d : list (string * pyobj)) : option pyobj :=
  match d with
  | [] => None
  | (k, v) :: d' => if String.eqb k key then Some v else dict_lookup key d'
  end.

(** [d.items()]: the pairs of the bindings, one per key. *)
Fixpoint dict_items (d : list (string * pyobj)) : list (string * pyobj) :=
  match d with
  | [] => []
  | (k, v) :: d' =>
      (k, v) :: filter (fun kv => negb (String.eqb (fst kv) k)) (dict_items d')
  end.

Definition ipaddr_eqb (x y : ipaddr) : bool :=
  match x, y with
  | IPv4 a, IPv4 b => (a =? b)%N
  | IPv6 a s, IPv6 b t =>
      (a =? b)%N &&
      match s, t with
      | None, None => true
      | Some u, Some v => String.eqb u v
      | _, _ => false
      end
  | _, _ => false
  end.

(** The operator [==].

    - [bool] and [int] compare by number; lists compare element by element;
      dicts compare as mappings; enum members and [None] by identity.
    - An address object equals only an address object of the same version,
      integer and scope.
    - Every class of zone.py is a [@dataclass] with the default [eq=True] and
      no [__eq__] in its own body, so the decorator installs the generated
      method: operands of the same class compare their dataclass fields in
      order, operands of different classes give [NotImplemented] on both
      sides and the comparison falls back to identity, which is false between
      distinct objects.  For [RecursionSource] and [RequestSource] this
      generated method shadows the one inherited from [IPComparableMixin].
    - [ttl] is annotated in [BaseRecord], which is not a dataclass: it is not
      a field of the record classes and takes no part in the comparison. *)
Fixpoint py_eq (a b : pyobj) {struct a} : bool :=
  match a, b with
  | PNone, PNone => true
  | PBool x, PBool y => Bool.eqb x y
  | PBool x, PInt y => (Z.b2z x =? y)%Z
  | PInt x, PBool y => (x =? Z.b2z y)%Z
  | PInt x, PInt y => (x =? y)%Z
  | PStr x, PStr y => String.eqb x y
  | PList xs, PList ys =>
      (fix go (xs ys : list pyobj) {struct xs} : bool :=
         match xs, ys with
         | [], [] => true
         | x :: xs', y :: ys' => py_eq x y && go xs' ys'
         | _, _ => false
         end) xs ys
  | PDict xs, PDict ys =>
      (List.length (dict_items xs) =? List.length (dict_items ys))%nat &&
      (fix go (seen : list string) (xs : list (string * pyobj)) {struct xs} : bool :=
         match xs with
         | [] => true
         | (k, v) :: xs' =>
             if existsb (String.eqb k) seen then go seen xs'
             else
               match dict_lookup k ys with
               | Some w => py_eq v w
               | None => false
               end && go (k :: seen) xs'
         end) [] xs
  | PEnum m, PEnum n => RecordType.eqb m n
  | PAddr x, PAddr y => ipaddr_eqb x y
  | ARecord _ a1 p1 r1, ARecord _ a2 p2 r2 =>
      py_eq a1 a2 && py_eq p1 p2 && py_eq r1 r2
  | AAAARecord _ a1 p1 r1, AAAARecord _ a2 p2 r2 =>
      py_eq a1 a2 && py_eq p1 p2 && py_eq r1 r2
  | CNAMERecord _ t1 r1, CNAMERecord _ t2 r2 => py_eq t1 t2 && py_eq r1 r2
  | TXTRecord _ t1 r1, TXTRecord _ t2 r2 => py_eq t1 t2 && py_eq r1 r2
  | PTRRecord _ h1 a1 r1, PTRRecord _ h2 a2 r2 =>
      py_eq h1 h2 && py_eq a1 a2 && py_eq r1 r2
  | RecursionSource a1, RecursionSource a2 => py_eq a1 a2
  | RequestSource a1, RequestSource a2 => py_eq a1 a2
  | Zone n1 r1 c1 s1 u1 p1, Zone n2 r2 c2 s2 u2 p2 =>
      py_eq n1 n2 && py_eq r1 r2 && py_eq c1 c2 && py_eq s1 s2 && py_eq u1 u2
      && py_eq p1 p2
  | _, _ => false
  end.

(** [x in l] for a list [l]: some element [e] of it has [e == x]. *)
Definition list_contains (l : list pyobj) (x : pyobj) : bool :=
  existsb (fun e => py_eq e x) l.

(** Whether [hash(o)] is defined.  Lists and dicts are unhashable; so is
    every dataclass of zone.py: with [eq=True], no [frozen] and no [__hash__]
    in the class body the decorator sets [__hash__ = None], which also hides
    the [__hash__] that [BaseRecord] and [IPComparableMixin] define. *)
Definition hashable (o : pyobj) : bool :=
  match o with
  | PNone | PBool _ | PInt _ | PStr _ | PEnum _ | PAddr _ => true
  | _ => false
  end.

(** ** Exceptions and the two effect layers *)

Inductive exn_class : Set :=
| Exception | ValueError | TypeError | KeyError | AttributeError
| UnboundLocalError | RuntimeError | RecursionError.

(** The text of an exception: a literal of the source, an f-string of the
    source (its literal prefix and the value it formats), or a text that the
    interpreter or a library produces, which the embedding does not
    reproduce. *)
Inductive message : Type :=
| Text (s : string)
| Format (prefix : string) (arg : pyobj)
| Builtin.

Inductive exn : Type := Raised (cls : exn_class) (msg : message).

(** A computation without state: a value or a raised exception. *)
Inductive result (T : Type) : Type :=
| Ok (v : T)
| Err (e : exn).
Arguments Ok {T} v.
Arguments Err {T} e.

Definition rbind {T U : Type} (r : result T) (k : T -> result U) : result U :=
  match r with
  | Ok v => k v
  | Err e => Err e
  end.

Notation "'let?' x ':=' r 'in' k" := (rbind r (fun x => k))
  (at level 10, x name, r at level 100, k at level 200).

(** A computation over mutable lists that the caller owns: the lists keep
    what was appended to them when an exception leaves the function. *)
Definition M (S T : Type) : Type := S -> result T * S.

Definition ret {S T : Type} (v : T) : M S T := fun s => (Ok v, s).
Definition raise {S T : Type} (e : exn) : M S T := fun s => (Err e, s).
Definition lift {S T : Type} (r : result T) : M S T := fun s => (r, s).
Definition get {S : Type} : M S S := fun s => (Ok s, s).
Definition put {S : Type} (s' : S) : M S unit := fun _ => (Ok tt, s').

Definition bind {S T U : Type} (m : M S T) (k : T -> M S U) : M S U :=
  fun s =>
    match m s with
    | (Ok v, s') => k v s'
    | (Err e, s') => (Err e, s')
    end.

Notation "'let*' x ':=' m 'in' k" := (bind m (fun x => k))
  (at level 10, x name, m at level 100, k at level 200).

(** Runs a computation on one component of a larger state. *)
Definition zoom {S S' T : Type} (proj : S -> S') (upd : S' -> S -> S)
  (m : M S' T) : M S T :=
  fun s => let (r, s') := m (proj s) in (r, upd s' s).

(** [for x in xs: body(x)] *)
Fixpoint for_each {S X : Type} (xs : list X) (body : X -> M S unit) : M S unit :=
  match xs with
  | [] => ret tt
  | x :: xs' => let* _ := body x in for_each xs' body
  end.

(** ** Operations of the interpreter used by the sources *)

(** The characters of a string.  In UTF-8 a character is one byte that is
    not a continuation byte (a byte from 128 to 191), followed by its
    continuation bytes.  [units s] is the bytes of [s] before its first
    character, and then its characters. *)
Definition continuation (c : ascii) : bool :=
  (128 <=? nat_of_ascii c)%nat && (nat_of_ascii c <? 192)%nat.

Fixpoint units (s : string) : string * list string :=
  match s with
  | EmptyString => (EmptyString, [])
  | String c s' =>
      let (k, l) := units s' in
      if continuation c then (String c k, l) else (EmptyString, String c k :: l)
  end.

Definition characters (s : string) : list string := snd (units s).

(** What a [for] loop runs over: the elements of a list, the keys of a dict,
    the characters of a string; any other value of the universe is not
    iterable. *)
Definition iterate (o : pyobj) : result (list pyobj) :=
  match o with
  | PList l => Ok l
  | PDict d => Ok (map (fun kv => PStr (fst kv)) (dict_items d))
  | PStr s => Ok (map PStr (characters s))
  | _ => Err (Raised TypeError Builtin)
  end.

(** [o[key]] for a string key: defined on dicts only. *)
Definition subscript (o : pyobj) (key : string) : result pyobj :=
  match o with
  | PDict d =>
      match dict_lookup key d with
      | Some v => Ok v
      | None => Err (Raised KeyError Builtin)
      end
  | _ => Err (Raised TypeError Builtin)
  end.

(** [o.get(key, default)]: only a dict has the method. *)
Definition method_get (o : pyobj) (key : string) (default : pyobj) : result pyobj :=
  match o with
  | PDict d =>
      match dict_lookup key d with
      | Some v => Ok v
      | None => Ok default
      end
  | _ => Err (Raised AttributeError Builtin)
  end.

(** [len(o)]; the length of a string is the number of its characters. *)
Definition py_len (o : pyobj) : result nat :=
  match o with
  | PStr s => Ok (List.length (characters s))
  | PList l => Ok (List.length l)
  | PDict d => Ok (List.length (dict_items d))
  | _ => Err (Raised TypeError Builtin)
  end.

(** Whether [sub] occurs in [s] as a substring. *)
Fixpoint substring_of (sub s : string) : bool :=
  String.prefix sub s ||
  match s with
  | EmptyString => false
  | String _ s' => substring_of sub s'
  end.

(** [x in o] for a string [x]. *)
Definition str_in (x : string) (o : pyobj) : result bool :=
  match o with
  | PStr s => Ok (substring_of x s)
  | PList l => Ok (list_contains l (PStr x))
  | PDict d => Ok (match dict_lookup x d with Some _ => true | None => false end)
  | _ => Err (Raised TypeError Builtin)
  end.

(** The integer that a value is, if it is one: [bool] is a subclass of
    [int]. *)
Definition int_value (o : pyobj) : option Z :=
  match o with
  | PInt n => Some n
  | PBool b => Some (if b then 1 else 0)%Z
  | _ => None
  end.

(** ** The [ipaddress] library and the texts of values

    Neither is part of the repository; the loaders are verified against this
    interface.  [IPv4Address] and [IPv6Address] give the integer of the
    address they accept ([None] stands for [AddressValueError], a subclass of
    [ValueError]); [reverse_pointer] is the property of that name ([None]
    when it raises [ValueError]); [py_str o] is [str(o)], the text that the
    interpreter and the classes of the value give it. *)
Class IPLib : Type := {
  IPv4Address : pyobj -> option N;
  IPv6Address : pyobj -> option (N * option string);
  reverse_pointer : ipaddr -> option string;
  py_str : pyobj -> string
}.

Section IpInterface.
Context {lib : IPLib}.

(** [ipaddress.ip_address]: the IPv4 constructor, then the IPv6 one, then
    [ValueError]. *)
Definition ip_address (address : pyobj) : result ipaddr :=
  match IPv4Address address with
  | Some n => Ok (IPv4 n)
  | None =>
      match IPv6Address address with
      | Some (n, scope) => Ok (IPv6 n scope)
      | None => Err (Raised ValueError Builtin)
      end
  end.

End IpInterface.

(** ** zone.py *)

Section ZonePy.
Context {lib : IPLib}.

(** [validate_hostname] *)
Definition validate_hostname (name : pyobj) : result unit :=
  if negb (truthy name) then
    Err (Raised ValueError (Text "Hostname cannot be empty"))
  else
    let? has_space := str_in " " name in
    if has_space then Err (Raised ValueError (Text "Invalid hostname"))
    else Ok tt.

(** [BaseRecord.__post_init__], on the value of [self.ttl] *)
Definition BaseRecord_post_init (ttl : pyobj) : result unit :=
  match ttl with
  | PNone => Ok tt
  | PInt n =>
      if (n <? 0)%Z then Err (Raised ValueError (Text "TTL must be >= 0"))
      else Ok tt
  | PBool _ => Ok tt
  | _ => Err (Raised TypeError (Text "TTL must be int"))
  end.

(** The parameters of each [__init__] with their defaults.  For the record
    classes, the sources and [Zone] it is the method that [@dataclass]
    generates from the fields of the class body, in order; [BaseRecord] is
    not a dataclass, so [ttl] is not among them.  [PTRRecord] writes its own
    [__init__(self, host, address)], which the decorator keeps. *)
Definition init_params (c : pyclass) : list (string * option pyobj) :=
  match c with
  | CARecord =>
      [("address", None); ("ptr_record", Some (PBool false));
       ("record_type", Some (PEnum RecordType.A))]
  | CAAAARecord =>
      [("address", None); ("ptr_record", Some (PBool false));
       ("record_type", Some (PEnum RecordType.AAAA))]
  | CCNAMERecord =>
      [("target", None); ("record_type", Some (PEnum RecordType.CNAME))]
  | CTXTRecord =>
      [("text", None); ("record_type", Some (PEnum RecordType.TXT))]
  | CPTRRecord => [("host", None); ("address", None)]
  | CRecursionSource | CRequestSource => [("address", None)]
  | CZone =>
      [("namespace", None); ("records", None); ("recursion", None);
       ("allow_sources", None); ("subsets", Some (PList []));
       ("parent", Some PNone)]
  end.

Definition has_key (key : string) (kwargs : list (string * pyobj)) : bool :=
  match dict_lookup key kwargs with Some _ => true | None => false end.

(** Binding of the arguments of a call to the parameters: positional
    arguments from the left, then keywords, then defaults.  A parameter
    left without a value, one given twice and a surplus positional argument
    are [TypeError]s. *)
Fixpoint bind_args (params : list (string * option pyobj))
  (args : list pyobj) (kwargs : list (string * pyobj)) : result (list pyobj) :=
  match params with
  | [] =>
      match args with
      | [] => Ok []
      | _ :: _ => Err (Raised TypeError Builtin)
      end
  | (name, default) :: params' =>
      match args with
      | a :: args' =>
          if has_key name kwargs then Err (Raised TypeError Builtin)
          else let? rest := bind_args params' args' kwargs in Ok (a :: rest)
      | [] =>
          match dict_lookup name kwargs, default with
          | Some v, _ => let? rest := bind_args params' [] kwargs in Ok (v :: rest)
          | None, Some d => let? rest := bind_args params' [] kwargs in Ok (d :: rest)
          | None, None => Err (Raised TypeError Builtin)
          end
      end
  end.

(** A keyword that names no parameter is a [TypeError] as well. *)
Definition bind_call (c : pyclass) (args : list pyobj)
  (kwargs : list (string * pyobj)) : result (list pyobj) :=
  if forallb (fun kv => has_key (fst kv) (map (fun p => (fst p, PNone)) (init_params c)))
       kwargs
  then bind_args (init_params c) args kwargs
  else Err (Raised TypeError Builtin).

(** The call of the class [c] with positional arguments [args] and keyword
    arguments [kwargs], that is its
    [__init__] followed, for the generated ones, by [__post_init__].

    - [ARecord]/[AAAARecord.__post_init__]: the check of [BaseRecord], then
      the address must be accepted by [IPv4Address]/[IPv6Address].
    - [CNAMERecord]: [validate_hostname(self.target)].
    - [TXTRecord]: at most 255 characters.
    - [PTRRecord.__init__] stores the host and the reverse pointer of
      [ip_address(address)]; [record_type] stays the class attribute.
    - The sources call [ip_address], whose plain [ValueError] is not the
      [AddressValueError] that their handler names, so it passes through.
    - [Zone] has no [__post_init__]. *)
Definition construct (c : pyclass) (args : list pyobj)
  (kwargs : list (string * pyobj)) : result pyobj :=
  let? bound := bind_call c args kwargs in
  match c, bound with
  | CARecord, [address; ptr_record; record_type] =>
      let? _ := BaseRecord_post_init PNone in
      match IPv4Address address with
      | Some _ => Ok (ARecord PNone address ptr_record record_type)
      | None => Err (Raised ValueError (Format "Invalid IPv4 address: " address))
      end
  | CAAAARecord, [address; ptr_record; record_type] =>
      let? _ := BaseRecord_post_init PNone in
      match IPv6Address address with
      | Some _ => Ok (AAAARecord PNone address ptr_record record_type)
      | None => Err (Raised ValueError (Format "Invalid IPv6 address: " address))
      end
  | CCNAMERecord, [target; record_type] =>
      let? _ := BaseRecord_post_init PNone in
      let? _ := validate_hostname target in
      Ok (CNAMERecord PNone target record_type)
  | CTXTRecord, [text; record_type] =>
      let? _ := BaseRecord_post_init PNone in
      let? n := py_len text in
      if (255 <? n)%nat then
        Err (Raised ValueError (Text "TXT record cant have more then 255 character"))
      else Ok (TXTRecord PNone text record_type)
  | CPTRRecord, [host; address] =>
      let? ip := ip_address address in
      match reverse_pointer ip with
      | Some rp => Ok (PTRRecord PNone host (PStr rp) (PEnum RecordType.PTR))
      | None => Err (Raised ValueError Builtin)
      end
  | CRecursionSource, [address] =>
      let? _ := ip_address address in Ok (RecursionSource address)
  | CRequestSource, [address] =>
      let? _ := ip_address address in Ok (RequestSource address)
  | CZone, [namespace; records; recursion; allow_sources; subsets; parent] =>
      Ok (Zone namespace records recursion allow_sources subsets parent)
  | _, _ => Err (Raised TypeError Builtin)
  end.

(** [o.address], for the objects that have the attribute *)
Definition getattr_address (o : pyobj) : option pyobj :=
  match o with
  | ARecord _ a _ _ | AAAARecord _ a _ _ | PTRRecord _ _ a _
  | RecursionSource a | RequestSource a => Some a
  | _ => None
  end.

(** [IPComparableMixin._ip] *)
Definition _ip (self : pyobj) : result ipaddr :=
  match getattr_address self with
  | Some a => ip_address a
  | None => Err (Raised AttributeError Builtin)
  end.

(** [try: return e / except ValueError: return False] *)
Definition false_on_ValueError (r : result bool) : result (option bool) :=
  match r with
  | Ok b => Ok (Some b)
  | Err (Raised ValueError _) => Ok (Some false)
  | Err e => Err e
  end.

(** [IPComparableMixin.__eq__]; [Ok None] is [NotImplemented]. *)
Definition IPComparableMixin_eq (self other : pyobj) : result (option bool) :=
  match other with
  | PStr _ =>
      false_on_ValueError
        (let? x := _ip self in let? y := ip_address other in Ok (ipaddr_eqb x y))
  | PAddr y => let? x := _ip self in Ok (Some (ipaddr_eqb x y))
  | _ =>
      match getattr_address other with
      | Some a =>
          false_on_ValueError
            (let? x := _ip self in let? y := ip_address a in Ok (ipaddr_eqb x y))
      | None => Ok None
      end
  end.

(** [IPComparableMixin.__hash__]: the hash of the parsed address, which is
    a function of its version, integer and scope; the embedding returns
    that key. *)
Definition IPComparableMixin_hash (self : pyobj) : result ipaddr := _ip self.

(** [hash(o)] as the interpreter resolves it for a source identifier: the
    class attribute [__hash__] is [None] (see [hashable]). *)
Definition py_hash_source (o : pyobj) : result ipaddr :=
  if hashable o then IPComparableMixin_hash o else Err (Raised TypeError Builtin).

(** [a + b].  Two strings and two lists are concatenated, two integers
    added.  An address object plus an integer is
    [self.__class__(int(self) + other)]: the address of the sum, which the
    constructor refuses with [AddressValueError] when it is out of range.
    No other pair of values of the universe has an addition. *)
Definition py_add (a b : pyobj) : result pyobj :=
  match a, b with
  | PStr s, PStr t => Ok (PStr (s ++ t))
  | PList l, PList m => Ok (PList (l ++ m))
  | PAddr (IPv4 n), _ =>
      match int_value b with
      | Some k =>
          match IPv4Address (PInt (Z.of_N n + k)) with
          | Some m => Ok (PAddr (IPv4 m))
          | None => Err (Raised ValueError Builtin)
          end
      | None => Err (Raised TypeError Builtin)
      end
  | PAddr (IPv6 n _), _ =>
      match int_value b with
      | Some k =>
          match IPv6Address (PInt (Z.of_N n + k)) with
          | Some (m, scope) => Ok (PAddr (IPv6 m scope))
          | None => Err (Raised ValueError Builtin)
          end
      | None => Err (Raised TypeError Builtin)
      end
  | _, _ =>
      match int_value a, int_value b with
      | Some x, Some y => Ok (PInt (x + y))
      | _, _ => Err (Raised TypeError Builtin)
      end
  end.

(** [self.host].  On a [Zone] it is the property
    [(self.namespace or "") + ("." if not self.parent else self.parent.host)]:
    a call, which raises [RecursionError] when none is left of the [depth]
    of nested calls that the interpreter still allows.  On a [PTRRecord] it
    is the attribute that [__init__] has set.  No other object has it. *)
Fixpoint host (depth : nat) (self : pyobj) {struct self} : result pyobj :=
  match self with
  | Zone namespace _ _ _ _ parent =>
      match depth with
      | O => Err (Raised RecursionError Builtin)
      | S depth' =>
          let left := py_or namespace (PStr "") in
          let? right :=
            if negb (truthy parent) then Ok (PStr ".") else host depth' parent in
          py_add left right
      end
  | PTRRecord _ h _ _ => Ok h
  | _ => Err (Raised AttributeError Builtin)
  end.

(** [format(o, "")], what an f-string puts in place of [{o}]: a string
    itself, [str(o)] for any other value of the universe. *)
Definition format_value (o : pyobj) : string :=
  match o with
  | PStr s => s
  | _ => py_str o
  end.

End ZonePy.

(** ** db.py *)

(** The three lists that one load shares among all its zones. *)
Record pools : Type := Pools {
  recursion_sources : list pyobj;
  allow_sources : list pyobj;
  ptr_records : list pyobj
}.

Definition set_recursion_sources (l : list pyobj) (p : pools) : pools :=
  Pools l (allow_sources p) (ptr_records p).
Definition set_allow_sources (l : list pyobj) (p : pools) : pools :=
  Pools (recursion_sources p) l (ptr_records p).
Definition set_ptr_records (l : list pyobj) (p : pools) : pools :=
  Pools (recursion_sources p) (allow_sources p) l.

Section DbPy.
Context {lib : IPLib}.

(** [RecordType[type]] inside [try ... except KeyError]: a key that is not
    hashable is a [TypeError], which the handler does not catch; any other
    key that is not the name of a member becomes
    [ValueError("record type undefined")]. *)
Definition resolve_type (type : pyobj) : result RecordType.t :=
  if negb (hashable type) then Err (Raised TypeError Builtin)
  else
    match type with
    | PStr key =>
        match RecordType.getitem key with
        | Some m => Ok m
        | None => Err (Raised ValueError (Text "record type undefined"))
        end
    | _ => Err (Raised ValueError (Text "record type undefined"))
    end.

(** The class attribute [record_type] of a record class: the default of
    the field. *)
Definition class_record_type (c : pyclass) : pyobj :=
  match dict_lookup "record_type"
          (map (fun p => (fst p, match snd p with Some d => d | None => PNone end))
             (init_params c)) with
  | Some d => d
  | None => PNone
  end.

(** [next(filter(lambda t: t.record_type == rtype,
                 (ARecord, AAAARecord, CNAMERecord, TXTRecord,)))].
    When no class matches, [next] raises [StopIteration]; it leaves the
    coroutine [load_records] as [RuntimeError]. *)
Definition select_class (rtype : pyobj) : result pyclass :=
  match find (fun t => py_eq (class_record_type t) rtype)
          [CARecord; CAAAARecord; CCNAMERecord; CTXTRecord] with
  | Some c => Ok c
  | None => Err (Raised RuntimeError Builtin)
  end.

(** [record_type.__dict__["__annotations__"]]: the names annotated in the
    body of the class. *)
Definition annotations (c : pyclass) : list string :=
  match c with
  | CARecord | CAAAARecord => ["address"; "ptr_record"; "record_type"]
  | CCNAMERecord => ["target"; "record_type"]
  | CTXTRecord => ["text"; "record_type"]
  | CPTRRecord => ["host"; "address"; "record_type"]
  | CRecursionSource | CRequestSource => ["address"]
  | CZone =>
      ["namespace"; "records"; "recursion"; "allow_sources"; "subsets"; "parent"]
  end.

Definition mem_str (x : string) (l : list string) : bool :=
  existsb (String.eqb x) l.

(** [set(...annotations...) & set(("record_type",))] *)
Definition record_params (c : pyclass) : list string :=
  filter (fun n => mem_str n ["record_type"]) (annotations c).

(** Lines 11-27 of [load_records]: from one raw record to the instance. *)
Definition build_record (record : pyobj) : result pyobj :=
  let? type := subscript record "type" in
  let? rtype := resolve_type type in
  if isinstance (PEnum rtype) CPTRRecord then
    Err (Raised Exception
           (Text "cant define PTR record here (user ptr_record property in A and AAAA)"))
  else
    let? record_type := select_class (PEnum rtype) in
    let? items :=
      match record with
      | PDict d => Ok (dict_items d)
      | _ => Err (Raised AttributeError Builtin)
      end in
    let params := filter (fun param => mem_str (fst param) (record_params record_type)) items in
    construct record_type [] params.

Definition getattr_ptr_record (o : pyobj) : pyobj :=
  match o with
  | ARecord _ _ p _ | AAAARecord _ _ p _ => p
  | _ => PNone
  end.

(** Line 29: [isinstance(record_ins, (ARecord, AAAARecord,)) and
    record_ins.ptr_record]. *)
Definition wants_ptr (record_ins : pyobj) : bool :=
  (isinstance record_ins CARecord || isinstance record_ins CAAAARecord)
  && truthy (getattr_ptr_record record_ins).

(** Lines 29-33: the reverse-pointer record of an address record that asks
    for one, added to the shared list unless an equal one is there. *)
Definition synth_ptr (host record_ins : pyobj) : M (list pyobj) unit :=
  if wants_ptr record_ins then
    let* ptr :=
      lift (construct CPTRRecord
              [host; match getattr_address record_ins with Some a => a | None => PNone end]
              []) in
    let* ptr_records := get in
    if negb (list_contains ptr_records ptr) then put (ptr_records ++ [ptr])
    else ret tt
  else ret tt.

(** Lines 29-33 as one load runs them: once for each record that was built,
    with the host of the zone that declares it, over the one shared list. *)
Definition synth_all (built : list (string * pyobj)) : M (list pyobj) unit :=
  for_each built (fun hr => synth_ptr (PStr (fst hr)) (snd hr)).

(** Lines 35-36: [records_ins] after the instance was considered. *)
Definition keep_record (records_ins : list pyobj) (record_ins : pyobj) : list pyobj :=
  if negb (list_contains records_ins record_ins) then records_ins ++ [record_ins]
  else records_ins.

(** The local variables of [load_records] that the loop assigns:
    [records_ins], and [record_ins], unbound until the first record is
    built. *)
Record locals : Type := Locals {
  records_ins : list pyobj;
  record_ins : option pyobj
}.

Fixpoint load_records_loop (records : list pyobj) (host : pyobj) (l : locals)
  : M (list pyobj) locals :=
  match records with
  | [] => ret l
  | record :: rest =>
      let* r := lift (build_record record) in
      let* _ := synth_ptr host r in
      load_records_loop rest host (Locals (keep_record (records_ins l) r) (Some r))
  end.

(** [load_records(records, host, ptr_records=...)], over the list
    [ptr_records].  The function ends with [return record_ins]. *)
Definition load_records (records host : pyobj) : M (list pyobj) pyobj :=
  let* items := lift (iterate records) in
  let* l := load_records_loop items host (Locals [] None) in
  match record_ins l with
  | Some r => ret r
  | None => raise (Raised UnboundLocalError Builtin)
  end.

(** [for src in pool: if src == addr: break]: the position of the first
    entry that compares equal to [addr]. *)
Fixpoint find_source (pool : list pyobj) (addr : pyobj) (i : nat) : option nat :=
  match pool with
  | [] => None
  | src :: pool' => if py_eq src addr then Some i else find_source pool' addr (S i)
  end.

(** Lines 61-69 (and 73-81): each address of the zone is looked up in the
    shared list and, when the loop finds none, built and appended.  The
    zone keeps references to entries of the list; a reference is the
    position of the entry. *)
Fixpoint intern_sources (c : pyclass) (addrs : list pyobj) : M (list pyobj) (list nat) :=
  match addrs with
  | [] => ret []
  | addr :: rest =>
      let* pool := get in
      let* i :=
        match find_source pool addr 0 with
        | Some i => ret i
        | None =>
            let* src := lift (construct c [addr] []) in
            let* _ := put (pool ++ [src]) in
            ret (List.length pool)
        end in
      let* refs := intern_sources c rest in
      ret (i :: refs)
  end.

Definition deref (pool : list pyobj) (refs : list nat) : pyobj :=
  PList (map (fun i => nth i pool PNone) refs).

(** [namespace.endswith(".")] *)
Definition endswith (o : pyobj) (suffix : string) : result bool :=
  match o with
  | PStr s =>
      Ok (String.eqb
            (String.substring (String.length s - String.length suffix)
               (String.length suffix) s) suffix)
  | _ => Err (Raised AttributeError Builtin)
  end.

(** [zone.subsets.append(subz)] *)
Definition append_subset (zone subz : pyobj) : result pyobj :=
  match zone with
  | Zone n r c s (PList l) p => Ok (Zone n r c s (PList (l ++ [subz])) p)
  | _ => Err (Raised AttributeError Builtin)
  end.

(** Line 83: [Zone(parent_zone, namespace, records, recursion_sources_zone,
    allow_sources_zone)], five positional arguments. *)
Definition make_zone (parent_zone namespace records recursion_sources_zone
  allow_sources_zone : pyobj) : result pyobj :=
  construct CZone
    [parent_zone; namespace; records; recursion_sources_zone; allow_sources_zone] [].

(** Line 55: [host = "." if not namespace else f"{namespace}.{parent_zone.host}"],
    for a namespace that line 43 has let through: [None] or a string.
    [depth] is the number of nested calls left for [parent_zone.host]. *)
Definition zone_host (depth : nat) (namespace : option string) (parent_zone : pyobj)
  : result string :=
  match namespace with
  | None => Ok "."
  | Some ns =>
      if negb (truthy (PStr ns)) then Ok "."
      else
        let? h := host depth parent_zone in
        Ok (ns ++ "." ++ format_value h)%string
  end.

Definition opt_str (namespace : option string) : pyobj :=
  match namespace with
  | Some ns => PStr ns
  | None => PNone
  end.

(** [load_zone(zone, parent_zone, recursion_sources=..., allow_sources=...,
    ptr_records=...)].  [depth] is the number of nested calls that the
    interpreter still allows. *)
Fixpoint load_zone (depth : nat) (zone parent_zone : pyobj) {struct depth}
  : M pools pyobj :=
  match depth with
  | O => raise (Raised RecursionError Builtin)
  | S depth' =>
      let* ns := lift (method_get zone "namespace" PNone) in
      (* line 43 *)
      let* namespace :=
        match py_or ns PNone with
        | PNone => ret None
        | PStr s => ret (Some s)
        | _ => raise (Raised Exception (Text "namespace should be an string"))
        end in
      (* line 46 *)
      if negb (truthy parent_zone) && truthy (opt_str namespace) then
        raise (Raised Exception (Text "subzone cant be root"))
      else
      (* line 49 *)
      let* ends :=
        if negb (truthy parent_zone) then lift (endswith (opt_str namespace) ".")
        else ret true in
      if negb (truthy parent_zone) && negb ends then
        raise (Raised Exception (Text "root identifier cant find in head zone namespace"))
      else
      (* line 52 *)
      let* recs := lift (method_get zone "records" PNone) in
      if negb (truthy (opt_str namespace)) && truthy recs then
        raise (Raised Exception (Text "root cant have a record"))
      else
      (* line 55 *)
      let* h := lift (zone_host depth' namespace parent_zone) in
      (* line 57 *)
      let* raw_records := lift (method_get zone "records" (PList [])) in
      let* records :=
        zoom ptr_records set_ptr_records (load_records raw_records (PStr h)) in
      (* lines 59-69 *)
      let* raw_recursion := lift (method_get zone "recursion" (PList [])) in
      let* addrs := lift (iterate raw_recursion) in
      let* rrefs :=
        zoom recursion_sources set_recursion_sources
          (intern_sources CRecursionSource addrs) in
      (* lines 71-81 *)
      let* raw_allow := lift (method_get zone "allow_sources" (PList [])) in
      let* addrs' := lift (iterate raw_allow) in
      let* arefs :=
        zoom allow_sources set_allow_sources
          (intern_sources CRequestSource addrs') in
      (* line 83: the name [zone] now denotes the new object *)
      let* p := get in
      let* zone' :=
        lift (make_zone parent_zone (opt_str namespace) records
                (deref (recursion_sources p) rrefs)
                (deref (allow_sources p) arefs)) in
      (* lines 85-94 *)
      let* raw_subzones := lift (method_get zone' "subzones" (PList [])) in
      let* subzones := lift (iterate raw_subzones) in
      (fix children (subzones : list pyobj) (z : pyobj) : M pools pyobj :=
         match subzones with
         | [] => ret z
         | subzone :: rest =>
             let* subz := load_zone depth' subzone z in
             let* z' := lift (append_subset z subz) in
             children rest z'
         end) subzones zone'
  end.

End DbPy.

(** ** db.py, the entry point *)

Section DbPyEntry.
Context {lib : IPLib}.

(** [json.load(fp)] starts with [fp.read()].  [load_db] passes it the text
    that [await f.read()] returned, and neither a string nor any other value
    of the universe has that method. *)
Definition json_load (fp : pyobj) : result pyobj :=
  match fp with
  | _ => Err (Raised AttributeError Builtin)
  end.

(** [isinstance(data, dict)] *)
Definition is_dict (o : pyobj) : bool :=
  match o with PDict _ => true | _ => false end.

(** Lines 102-113 of [load_db], from the decoded value [data]: the check of
    its type, three fresh lists, and the root call of [load_zone]. *)
Definition load_db_decoded (depth : nat) (data : pyobj) : result pyobj :=
  if negb (is_dict data) then
    Err (Raised Exception (Text "cant load database, object file expected"))
  else fst (load_zone depth data PNone (Pools [] [] [])).

(** [load_db(db_path)], from the text of the file at [db_path]. *)
Definition load_db (depth : nat) (contents : string) : result pyobj :=
  let? data := json_load (PStr contents) in
  load_db_decoded depth data.

End DbPyEntry.

(** ** The error kinds of the specification

    The sources raise [Exception], [ValueError] and [TypeError] with a text;
    the specification (section 7) names kinds.  [error_kind] attaches to each
    [raise] statement of the sources the kind that the specification gives
    to the check it belongs to; an exception that the interpreter or a
    library raises has no kind. *)

Inductive ErrorKind : Set :=
| ConfigFormatError | UnknownRecordType | DirectPTRNotAllowed | InvalidAddress
| InvalidHostname | TextTooLong | InvalidTTL | InvalidNamespace
| RootConstraintViolation | RootRecordsNotAllowed.

Definition error_kind (e : exn) : option ErrorKind :=
  match e with
  | Raised Exception (Text t) =>
      if String.eqb t "cant load database, object file expected" then Some ConfigFormatError
      else if String.eqb t "cant define PTR record here (user ptr_record property in A and AAAA)"
      then Some DirectPTRNotAllowed
      else if String.eqb t "namespace should be an string" then Some InvalidNamespace
      else if String.eqb t "subzone cant be root" then Some RootConstraintViolation
      else if String.eqb t "root identifier cant find in head zone namespace"
      then Some RootConstraintViolation
      else if String.eqb t "root cant have a record" then Some RootRecordsNotAllowed
      else None
  | Raised ValueError (Text t) =>
      if String.eqb t "record type undefined" then Some UnknownRecordType
      else if String.eqb t "Hostname cannot be empty" then Some InvalidHostname
      else if String.eqb t "Invalid hostname" then Some InvalidHostname
      else if String.eqb t "TXT record cant have more then 255 character" then Some TextTooLong
      else if String.eqb t "TTL must be >= 0" then Some InvalidTTL
      else None
  | Raised ValueError (Format _ _) => Some InvalidAddress
  | Raised TypeError (Text t) =>
      if String.eqb t "TTL must be int" then Some InvalidTTL else None
  | _ => None
  end.

(** ** A model of [ipaddress]

    The properties below hold for every behaviour of the library that fits
    [IPLib].  This instance follows the library's own source on the values of
    the universe ([_parse_octet], [_ip_int_from_string], [_parse_hextet],
    [_split_scope_id], [_reverse_pointer]); it is what the concrete runs in
    this file are evaluated with. *)

Module Ipaddress.

Definition is_digit (c : ascii) : bool :=
  let n := N_of_ascii c in (48 <=? n)%N && (n <=? 57)%N.

Definition hex_digit (c : ascii) : option N :=
  let n := N_of_ascii c in
  if (48 <=? n)%N && (n <=? 57)%N then Some (n - 48)%N
  else if (65 <=? n)%N && (n <=? 70)%N then Some (n - 55)%N
  else if (97 <=? n)%N && (n <=? 102)%N then Some (n - 87)%N
  else None.

Definition is_hex (c : ascii) : bool :=
  match hex_digit c with Some _ => true | None => false end.

Fixpoint all_chars (p : ascii -> bool) (s : string) : bool :=
  match s with
  | EmptyString => true
  | String c s' => p c && all_chars p s'
  end.

Fixpoint contains_char (c : ascii) (s : string) : bool :=
  match s with
  | EmptyString => false
  | String d s' => Ascii.eqb c d || contains_char c s'
  end.

(** [s.split(sep)] for a separator of one character *)
Fixpoint split (sep : ascii) (s : string) : list string :=
  match s with
  | EmptyString => [EmptyString]
  | String c s' =>
      if Ascii.eqb c sep then EmptyString :: split sep s'
      else
        match split sep s' with
        | p :: ps => String c p :: ps
        | [] => [String c EmptyString]
        end
  end.

(** [s.partition(sep)]: the text before the first separator and, when
    there is one, the text after it. *)
Fixpoint partition (sep : ascii) (s : string) : string * option string :=
  match s with
  | EmptyString => (EmptyString, None)
  | String c s' =>
      if Ascii.eqb c sep then (EmptyString, Some s')
      else let (a, r) := partition sep s' in (String c a, r)
  end.

Fixpoint digits_value (base : N) (s : string) (acc : N) : N :=
  match s with
  | EmptyString => acc
  | String c s' =>
      digits_value base s'
        (acc * base + match hex_digit c with Some d => d | None => 0 end)%N
  end.

Definition parse_octet (octet_str : string) : option N :=
  if String.eqb octet_str "" then None
  else if negb (all_chars is_digit octet_str) then None
  else if (3 <? String.length octet_str)%nat then None
  else if negb (String.eqb octet_str "0") && String.prefix "0" octet_str then None
  else
    let octet_int := digits_value 10 octet_str 0 in
    if (255 <? octet_int)%N then None else Some octet_int.

(** Big-endian combination of parsed groups of [width] bits. *)
Fixpoint combine (width : N) (groups : list (option N)) (acc : N) : option N :=
  match groups with
  | [] => Some acc
  | Some g :: rest => combine width rest (N.lor (N.shiftl acc width) g)
  | None :: _ => None
  end.

Definition ipv4_from_string (ip_str : string) : option N :=
  if String.eqb ip_str "" then None
  else
    let octets := split "." ip_str in
    if negb (List.length octets =? 4)%nat then None
    else combine 8 (map parse_octet octets) 0.

Definition ipv4_address (address : pyobj) : option N :=
  match address with
  | PInt n =>
      if (0 <=? n)%Z && (n <=? 4294967295)%Z then Some (Z.to_N n) else None
  | PBool b => Some (if b then 1 else 0)%N
  | PStr s => if contains_char "/" s then None else ipv4_from_string s
  | PAddr (IPv4 n) => Some n
  | _ => None
  end.

Definition parse_hextet (hextet_str : string) : option N :=
  if negb (all_chars is_hex hextet_str) then None
  else if (4 <? String.length hextet_str)%nat then None
  else if String.eqb hextet_str "" then None
  else Some (digits_value 16 hextet_str 0).

Definition hex_char (d : N) : ascii :=
  ascii_of_N (if (d <? 10)%N then 48 + d else 87 + d).

Definition dec_char (d : N) : ascii := ascii_of_N (48 + d).

(** ['%x' % n] for [n < 65536] *)
Definition to_hex (n : N) : string :=
  let d3 := N.shiftr n 12 in
  let d2 := N.land (N.shiftr n 8) 15 in
  let d1 := N.land (N.shiftr n 4) 15 in
  let d0 := N.land n 15 in
  if (0 <? d3)%N then
    String (hex_char d3) (String (hex_char d2) (String (hex_char d1) (String (hex_char d0) "")))
  else if (0 <? d2)%N then
    String (hex_char d2) (String (hex_char d1) (String (hex_char d0) ""))
  else if (0 <? d1)%N then String (hex_char d1) (String (hex_char d0) "")
  else String (hex_char d0) "".

(** Positions, counted from [i], of the empty strings of [parts]. *)
Fixpoint empties (parts : list string) (i : nat) : list nat :=
  match parts with
  | [] => []
  | p :: rest =>
      if String.eqb p "" then i :: empties rest (S i) else empties rest (S i)
  end.

Definition ipv6_from_string (ip_str : string) : option N :=
  if String.eqb ip_str "" then None
  else
    let parts := split ":" ip_str in
    if (List.length parts <? 3)%nat then None
    else
      let tail := last parts "" in
      let with_suffix :=
        if contains_char "." tail then
          match ipv4_address (PStr tail) with
          | Some v =>
              Some (removelast parts
                      ++ [to_hex (N.land (N.shiftr v 16) 65535);
                          to_hex (N.land v 65535)])
          | None => None
          end
        else Some parts in
      match with_suffix with
      | None => None
      | Some parts =>
          let len := List.length parts in
          if (9 <? len)%nat then None
          else
            let first_empty := String.eqb (hd "" parts) "" in
            let last_empty := String.eqb (last parts "") "" in
            match empties (firstn (len - 2) (skipn 1 parts)) 1 with
            | _ :: _ :: _ => None
            | [skip_index] =>
                let parts_hi := if first_empty then (skip_index - 1)%nat else skip_index in
                let parts_lo :=
                  if last_empty then (len - skip_index - 1 - 1)%nat
                  else (len - skip_index - 1)%nat in
                if first_empty && negb (parts_hi =? 0)%nat then None
                else if last_empty && negb (parts_lo =? 0)%nat then None
                else if (8 <=? parts_hi + parts_lo)%nat then None
                else
                  let parts_skipped := (8 - (parts_hi + parts_lo))%nat in
                  match combine 16 (map parse_hextet (firstn parts_hi parts)) 0 with
                  | Some hi =>
                      combine 16 (map parse_hextet (skipn (len - parts_lo) parts))
                        (N.shiftl hi (16 * N.of_nat parts_skipped))
                  | None => None
                  end
            | [] =>
                if negb (len =? 8)%nat then None
                else if first_empty || last_empty then None
                else combine 16 (map parse_hextet parts) 0
            end
      end.

Definition split_scope_id (ip_str : string) : option (string * option string) :=
  match partition "%" ip_str with
  | (addr, None) => Some (addr, None)
  | (addr, Some scope_id) =>
      if String.eqb scope_id "" || contains_char "%" scope_id then None
      else Some (addr, Some scope_id)
  end.

Definition ipv6_address (address : pyobj) : option (N * option string) :=
  match address with
  | PInt n =>
      if (0 <=? n)%Z && (n <? 2 ^ 128)%Z then Some (Z.to_N n, None) else None
  | PBool b => Some ((if b then 1 else 0)%N, None)
  | PStr s =>
      if contains_char "/" s then None
      else
        match split_scope_id s with
        | Some (addr, scope_id) =>
            match ipv6_from_string addr with
            | Some n => Some (n, scope_id)
            | None => None
            end
        | None => None
        end
  | PAddr (IPv6 n scope_id) => Some (n, scope_id)
  | _ => None
  end.

(** [str(n)] for [n < 256] *)
Definition octet_to_string (n : N) : string :=
  let h := (n / 100)%N in
  let t := ((n / 10) mod 10)%N in
  let u := (n mod 10)%N in
  if (0 <? h)%N then String (dec_char h) (String (dec_char t) (String (dec_char u) ""))
  else if (0 <? t)%N then String (dec_char t) (String (dec_char u) "")
  else String (dec_char u) "".

(** The 32 hexadecimal digits of [n], the lowest first. *)
Fixpoint nibbles (count : nat) (n : N) : list string :=
  match count with
  | O => []
  | S count' => String (hex_char (N.land n 15)) "" :: nibbles count' (N.shiftr n 4)
  end.

(** The property [reverse_pointer]: the octets of an IPv4 address, or the
    hexadecimal digits of the exploded IPv6 address, in reverse order.  The
    exploded form of an address with a scope identifier is computed from
    its text, scope included, which no longer parses. *)
Definition reverse_ptr (ip : ipaddr) : option string :=
  match ip with
  | IPv4 n =>
      Some (String.concat "."
              [octet_to_string (N.land n 255);
               octet_to_string (N.land (N.shiftr n 8) 255);
               octet_to_string (N.land (N.shiftr n 16) 255);
               octet_to_string (N.land (N.shiftr n 24) 255)]
            ++ ".in-addr.arpa")%string
  | IPv6 n None => Some (String.concat "." (nibbles 32 n) ++ ".ip6.arpa")%string
  | IPv6 _ (Some _) => None
  end.

(** *** The texts of values: [str] and [repr]

    The text of an IPv6 address is that of CPython 3.12 (3.13 writes an
    IPv4-mapped address with a dotted quad).  In the [repr] of a string the
    characters outside ASCII are taken to be printable, and are kept. *)

(** [str] of an [IPv4Address] *)
Definition ipv4_text (n : N) : string :=
  String.concat "."
    [octet_to_string (N.land (N.shiftr n 24) 255);
     octet_to_string (N.land (N.shiftr n 16) 255);
     octet_to_string (N.land (N.shiftr n 8) 255);
     octet_to_string (N.land n 255)].

(** The eight groups of an IPv6 address, the highest first. *)
Definition hextets (n : N) : list string :=
  map (fun i => to_hex (N.land (N.shiftr n (16 * N.of_nat i)) 65535))
    [7; 6; 5; 4; 3; 2; 1; 0]%nat.

(** The first of the longest runs of ["0"] groups: where it starts and its
    length.  [cur] and [len] describe the run that position [index]
    continues. *)
Fixpoint zero_run (groups : list string) (index : nat) (cur : option nat) (len : nat)
  (best : nat * nat) : nat * nat :=
  match groups with
  | [] => best
  | g :: rest =>
      if String.eqb g "0" then
        let start := match cur with Some st => st | None => index end in
        let best' := if (snd best <? S len)%nat then (start, S len) else best in
        zero_run rest (S index) (Some start) (S len) best'
      else zero_run rest (S index) None 0 best
  end.

(** [_compress_hextets] *)
Definition compress_hextets (groups : list string) : list string :=
  let (start, len) := zero_run groups 0 None 0 (0, 0)%nat in
  if (1 <? len)%nat then
    let stop := (start + len)%nat in
    let groups1 := if (stop =? List.length groups)%nat then groups ++ [""] else groups in
    let groups2 := firstn start groups1 ++ "" :: skipn stop groups1 in
    if (start =? 0)%nat then "" :: groups2 else groups2
  else groups.

(** [str] of an address object *)
Definition address_text (ip : ipaddr) : string :=
  match ip with
  | IPv4 n => ipv4_text n
  | IPv6 n scope =>
      let ip_str := String.concat ":" (compress_hextets (hextets n)) in
      match scope with
      | Some id => if String.eqb id "" then ip_str else (ip_str ++ "%" ++ id)%string
      | None => ip_str
      end
  end.

Definition double_quote : ascii := ascii_of_nat 34.

(** One character of a string inside [quote]s, as [repr] writes it. *)
Definition repr_char (quote c : ascii) : string :=
  let n := N_of_ascii c in
  if Ascii.eqb c "\" || Ascii.eqb c quote then String "\" (String c "")
  else if (n =? 9)%N then "\t"
  else if (n =? 10)%N then "\n"
  else if (n =? 13)%N then "\r"
  else if (n <? 32)%N || (n =? 127)%N then
    String "\" (String "x" (String (hex_char (N.shiftr n 4)) (String (hex_char (N.land n 15)) "")))
  else String c "".

(** [repr] of a string: in single quotes, unless it holds a single quote and
    no double quote. *)
Definition repr_str (s : string) : string :=
  let quote :=
    if contains_char "'" s && negb (contains_char double_quote s) then double_quote
    else "'"%char in
  (String quote (String.concat "" (map (repr_char quote) (list_ascii_of_string s)))
   ++ String quote "")%string.

Definition int_text (n : Z) : string := NilZero.string_of_int (Z.to_int n).

(** [repr(o)].  An enum member is written [<RecordType.A: 'A'>], an address
    object with the name of its class, and an instance of a dataclass by the
    [__repr__] that the decorator generates from its fields. *)
Fixpoint repr (o : pyobj) : string :=
  let field (name : string) (v : pyobj) : string := (name ++ "=" ++ repr v)%string in
  let instance (cls : string) (fields : list string) : string :=
    (cls ++ "(" ++ String.concat ", " fields ++ ")")%string in
  match o with
  | PNone => "None"
  | PBool b => if b then "True" else "False"
  | PInt n => int_text n
  | PStr s => repr_str s
  | PList l =>
      ("[" ++ String.concat ", "
                ((fix go (l : list pyobj) : list string :=
                    match l with
                    | [] => []
                    | x :: l' => repr x :: go l'
                    end) l) ++ "]")%string
  | PDict d =>
      ("{" ++ String.concat ", "
                ((fix go (seen : list string) (d : list (string * pyobj)) : list string :=
                    match d with
                    | [] => []
                    | (k, v) :: d' =>
                        if existsb (String.eqb k) seen then go seen d'
                        else (repr_str k ++ ": " ++ repr v)%string :: go (k :: seen) d'
                    end) [] d) ++ "}")%string
  | PEnum m =>
      ("<RecordType." ++ RecordType.name m ++ ": " ++ repr_str (RecordType.name m) ++ ">")%string
  | PAddr (IPv4 n) => ("IPv4Address(" ++ repr_str (address_text (IPv4 n)) ++ ")")%string
  | PAddr (IPv6 n scope) =>
      ("IPv6Address(" ++ repr_str (address_text (IPv6 n scope)) ++ ")")%string
  | ARecord _ a p r =>
      instance "ARecord" [field "address" a; field "ptr_record" p; field "record_type" r]
  | AAAARecord _ a p r =>
      instance "AAAARecord" [field "address" a; field "ptr_record" p; field "record_type" r]
  | CNAMERecord _ t r => instance "CNAMERecord" [field "target" t; field "record_type" r]
  | TXTRecord _ t r => instance "TXTRecord" [field "text" t; field "record_type" r]
  | PTRRecord _ h a r =>
      instance "PTRRecord" [field "host" h; field "address" a; field "record_type" r]
  | RecursionSource a => instance "RecursionSource" [field "address" a]
  | RequestSource a => instance "RequestSource" [field "address" a]
  | Zone n r c s u p =>
      instance "Zone"
        [field "namespace" n; field "records" r; field "recursion" c;
         field "allow_sources" s; field "subsets" u; field "parent" p]
  end.

(** [str(o)]: a string is its own text, an enum member is written
    [RecordType.A], an address object as its address; the other values of
    the universe have no [__str__] of their own and give their [repr]. *)
Definition str (o : pyobj) : string :=
  match o with
  | PStr s => s
  | PEnum m => ("RecordType." ++ RecordType.name m)%string
  | PAddr ip => address_text ip
  | _ => repr o
  end.

#[export] Instance lib : IPLib := {
  IPv4Address := ipv4_address;
  IPv6Address := ipv6_address;
  reverse_pointer := reverse_ptr;
  py_str := str
}.

End Ipaddress.

(** ** Vocabulary of the properties *)

(** The reverse-pointer record that [PTRRecord(host, address)] builds when
    the reverse pointer of the address is [rp]. *)
Definition ptr_of (hr : string * string) : pyobj :=
  PTRRecord PNone (PStr (fst hr)) (PStr (snd hr)) (PEnum RecordType.PTR).

(** How many entries of a list compare equal to [x]. *)
Definition count_eq (x : pyobj) (l : list pyobj) : nat :=
  List.length (filter (fun e => py_eq e x) l).

Definition is_source (o : pyobj) : bool :=
  isinstance o CRecursionSource || isinstance o CRequestSource.

(** A root zone as [Zone(None, [], [], [])] builds it. *)
Definition root_zone : pyobj :=
  Zone PNone (PList []) (PList []) (PList []) (PList []) PNone.

(** The sample address record of the specification. *)
Definition sample_record : pyobj :=
  PDict [("type", PStr "A"); ("address", PStr "93.184.216.34");
         ("ptr_record", PBool true)].

Definition no_pools : pools := Pools [] [] [].

(** The address record that the sample describes, as [ARecord] would build
    it from all its fields. *)
Definition sample_built_record : pyobj :=
  ARecord PNone (PStr "93.184.216.34") (PBool true) (PEnum RecordType.A).

(** Three requests for the reverse pointer of one address: two from one zone
    and one from another. *)
Definition sample_built : list (string * pyobj) :=
  [("example.com.", sample_built_record); ("example.org.", sample_built_record);
   ("example.com.", sample_built_record)].

(** The euro sign, a character of three bytes. *)
Definition euro_sign : string :=
  String (ascii_of_nat 226) (String (ascii_of_nat 130) (String (ascii_of_nat 172) "")).

(** Whether the character [" "] occurs in [s]. *)
Definition has_space (s : string) : bool :=
  existsb (Ascii.eqb " ") (list_ascii_of_string s).

(** [o.ttl], for the record objects. *)
Definition getattr_ttl (o : pyobj) : option pyobj :=
  match o with
  | ARecord t _ _ _ | AAAARecord t _ _ _ | CNAMERecord t _ _ | TXTRecord t _ _
  | PTRRecord t _ _ _ => Some t
  | _ => None
  end.

(** The source identifier of class [c] that holds [address]. *)
Definition source_of (c : pyclass) (address : pyobj) : pyobj :=
  match c with
  | CRequestSource => RequestSource address
  | _ => RecursionSource address
  end.

(** Whether a value is one that [json] decodes to, at the top: it is an
    instance of no class of zone.py. *)
Definition is_decoded (o : pyobj) : bool :=
  match class_of o with None => true | Some _ => false end.

(** A chain of zones, the innermost label first, each the child of the
    next, the last the child of the root. *)
Fixpoint zone_chain (labels : list string) : pyobj :=
  match labels with
  | [] => root_zone
  | label :: rest =>
      Zone (PStr label) (PList []) (PList []) (PList []) (PList []) (zone_chain rest)
  end.

(** A zone whose ancestors are all zones: its chain of [parent]s ends at a
    zone whose [parent] is false. *)
Fixpoint zone_ancestry (z : pyobj) : bool :=
  match z with
  | Zone _ _ _ _ _ parent => negb (truthy parent) || zone_ancestry parent
  | _ => false
  end.

(** [records_ins] after lines 35-36 have considered each instance of
    [built] in turn. *)
Definition keep_records (built : list pyobj) (records_ins : list pyobj) : list pyobj :=
  fold_left keep_record built records_ins.

Example ip_address_v4 :
  ip_address (lib := Ipaddress.lib) (PStr "93.184.216.34") = Ok (IPv4 1572395042).
Proof. reflexivity. Qed.

Example ip_address_v6_short :
  ip_address (lib := Ipaddress.lib) (PStr "::1") = Ok (IPv6 1 None).
Proof. reflexivity. Qed.

Example ip_address_v6_long :
  ip_address (lib := Ipaddress.lib) (PStr "0:0:0:0:0:0:0:1") = Ok (IPv6 1 None).
Proof. reflexivity. Qed.

Example ip_address_v6_mapped :
  ip_address (lib := Ipaddress.lib) (PStr "::ffff:1.2.3.4")
  = Ok (IPv6 281470698652420 None).
Proof. reflexivity. Qed.

Example ip_address_leading_zero :
  ip_address (lib := Ipaddress.lib) (PStr "127.0.0.01")
  = Err (Raised ValueError Builtin).
Proof. reflexivity. Qed.

Example reverse_pointer_v4 :
  reverse_pointer (IPLib := Ipaddress.lib) (IPv4 1572395042)
  = Some "34.216.184.93.in-addr.arpa".
Proof. reflexivity. Qed.

Example reverse_pointer_v6 :
  reverse_pointer (IPLib := Ipaddress.lib) (IPv6 1 None)
  = Some "1.0.0.0.0.0.0.0.0.0.0.0.0.0.0.0.0.0.0.0.0.0.0.0.0.0.0.0.0.0.0.0.ip6.arpa".
Proof. reflexivity. Qed.

(** * Properties *)

(** ** A computation stops at the first exception *)

Lemma bind_raises {S T U : Type} (m : M S T) (k : T -> M S U) s e s' :
  m s = (Err e, s') -> bind m k s = (Err e, s').
Proof. intros H. unfold bind. now rewrite H. Qed.

Lemma set_ptr_records_same (p : pools) : set_ptr_records (ptr_records p) p = p.
Proof. now destruct p. Qed.

Lemma py_or_none_cases (o : pyobj) :
  py_or o PNone = PNone \/ (py_or o PNone = o /\ truthy o = true).
Proof.
  unfold py_or. destruct (truthy o) eqn:E; [right | left]; auto.
Qed.

Section LoaderFacts.
Context {lib : IPLib}.

(** *** Record construction in [load_records] *)

(** The keyword arguments that line 25 passes on have no other key than
    ["record_type"]. *)
Lemma params_only_record_type (items : list (string * pyobj)) (key : string) :
  String.eqb key "record_type" = false ->
  dict_lookup key
    (filter (fun param => mem_str (fst param) ["record_type"]) items) = None.
Proof.
  intros Hk. induction items as [|[k v] items IH]; [reflexivity|].
  cbn [filter fst mem_str existsb].
  destruct (String.eqb k "record_type") eqn:Ek; cbn [orb]; [|exact IH].
  cbn [dict_lookup]. apply String.eqb_eq in Ek. subst k.
  rewrite String.eqb_sym, Hk. exact IH.
Qed.

(** Each of the four record classes has a required field, which is never
    among those keywords: the call is a [TypeError]. *)
Lemma construct_without_payload (c : pyclass) (items : list (string * pyobj)) :
  In c [CARecord; CAAAARecord; CCNAMERecord; CTXTRecord] ->
  construct c [] (filter (fun param => mem_str (fst param) (record_params c)) items)
  = Err (Raised TypeError Builtin).
Proof.
  intros Hc. unfold construct, bind_call.
  assert (Hp : record_params c = ["record_type"])
    by (destruct Hc as [<-|[<-|[<-|[<-|[]]]]]; reflexivity).
  rewrite Hp.
  destruct (forallb _ _); [|reflexivity].
  destruct Hc as [<-|[<-|[<-|[<-|[]]]]]; cbn [init_params bind_args];
    rewrite params_only_record_type by reflexivity; reflexivity.
Qed.

Lemma select_class_of_member (m : RecordType.t) :
  select_class (PEnum m) =
  match m with
  | RecordType.A => Ok CARecord
  | RecordType.AAAA => Ok CAAAARecord
  | RecordType.CNAME => Ok CCNAMERecord
  | RecordType.TXT => Ok CTXTRecord
  | RecordType.PTR => Err (Raised RuntimeError Builtin)
  end.
Proof. destruct m; reflexivity. Qed.

(** No raw record gets through lines 11-27. *)
Lemma build_record_raises (record : pyobj) :
  exists e, build_record record = Err e.
Proof.
  unfold build_record.
  destruct (subscript record "type") as [type|e] eqn:Hs; [|now exists e].
  cbn [rbind].
  destruct (resolve_type type) as [m|e]; [|now exists e].
  cbn [rbind]. replace (isinstance (PEnum m) CPTRRecord) with false by reflexivity.
  rewrite select_class_of_member.
  destruct record; try discriminate Hs.
  destruct m; cbn [rbind];
    try (rewrite construct_without_payload by (cbn; tauto); eauto).
  eauto.
Qed.

Lemma load_records_raises (records host : pyobj) (pool : list pyobj) :
  exists e, load_records records host pool = (Err e, pool).
Proof.
  unfold load_records.
  destruct (iterate records) as [items|e] eqn:Hi.
  - destruct items as [|record rest].
    + eexists. reflexivity.
    + destruct (build_record_raises record) as [e He]. exists e.
      unfold bind at 1. unfold lift at 1. cbn [load_records_loop].
      unfold bind at 1. unfold bind at 1. unfold lift. now rewrite He.
  - exists e. reflexivity.
Qed.

(** *** [load_zone] *)


End LoaderFacts.

(** ** The root invocation of [load_zone] *)

Section RootInvocation.
Context {lib : IPLib}.

(** Without a parent, a mapping that has no (or an empty) namespace reaches
    line 49, [namespace.endswith(".")], with [namespace = None]. *)
Lemma load_zone_root_unnamed (depth : nat) (zone : list (string * pyobj)) (p : pools) :
  truthy (match dict_lookup "namespace" zone with Some v => v | None => PNone end) = false ->
  load_zone (S depth) (PDict zone) PNone p = (Err (Raised AttributeError Builtin), p).
Proof.
  intros Hn. cbn [load_zone method_get].
  unfold bind at 1. unfold lift at 1.
  assert (H : py_or match dict_lookup "namespace" zone with
                    | Some v => v | None => PNone end PNone = PNone)
    by (unfold py_or; now rewrite Hn).
  destruct (dict_lookup "namespace" zone); rewrite H; reflexivity.
Qed.

End RootInvocation.

(** C1 (defect of the code).  For every mapping given to [load_zone] without
    a parent, whatever its records, the call raises and returns no zone: a
    mapping without namespace, or with an empty one, raises [AttributeError]
    at line 49; a non-empty string is refused at line 46 and any other
    value at line 43.  The shared lists are left as they were. *)
Theorem load_zone_root_raises :
  forall (lib : IPLib) (depth : nat) (zone : list (string * pyobj)) (p : pools),
    load_zone (S depth) (PDict zone) PNone p =
    (Err match py_or (match dict_lookup "namespace" zone with
                      | Some v => v
                      | None => PNone
                      end) PNone with
         | PNone => Raised AttributeError Builtin
         | PStr _ => Raised Exception (Text "subzone cant be root")
         | _ => Raised Exception (Text "namespace should be an string")
         end, p).
Proof.
  intros lib depth zone p.
  destruct (py_or_none_cases
              (match dict_lookup "namespace" zone with Some v => v | None => PNone end))
    as [H|[H Ht]].
  - rewrite H. apply load_zone_root_unnamed.
    unfold py_or in H.
    destruct (truthy match dict_lookup "namespace" zone with
                     | Some v => v | None => PNone end) eqn:E; [|reflexivity].
    rewrite H in E. discriminate E.
  - cbn [load_zone method_get]. unfold bind at 1. unfold lift at 1.
    destruct (dict_lookup "namespace" zone) as [v|]; [|discriminate Ht].
    rewrite H.
    destruct v; try reflexivity; try discriminate Ht.
    unfold bind at 1. unfold ret at 1. cbn [opt_str]. rewrite Ht. reflexivity.
Qed.

Example load_zone_root_empty_mapping :
  load_zone (lib := Ipaddress.lib) 1000 (PDict []) PNone no_pools
  = (Err (Raised AttributeError Builtin), no_pools).
Proof. reflexivity. Qed.

Example load_zone_root_empty_records :
  load_zone (lib := Ipaddress.lib) 1000 (PDict [("records", PList [])]) PNone no_pools
  = (Err (Raised AttributeError Builtin), no_pools).
Proof. reflexivity. Qed.

(** ** What [load_records] gives back *)

(** C2 (defect of the code).  [load_records] ends with [return record_ins],
    the instance built last, where the list [records_ins] was meant.  On the
    empty list of raw records the loop body never runs, the name was never
    assigned, and the call raises [UnboundLocalError] where the complete list
    would be the empty list; and there is no input on which the call returns
    a list, or anything: it raises on every one. *)
Theorem load_records_empty_unbound :
  forall (lib : IPLib) (records host : pyobj) (pool : list pyobj),
    load_records (PList []) host pool = (Err (Raised UnboundLocalError Builtin), pool)
    /\ exists e, load_records records host pool = (Err e, pool).
Proof.
  intros lib records host pool. split.
  - reflexivity.
  - apply load_records_raises.
Qed.

(** C7 (defect of the code).  A raw record of type ["PTR"] is not refused by
    the guard of line 18, which tests the enum member against the class
    [PTRRecord]; the search of line 21 then finds no class and the call
    leaves with [RuntimeError], which is not the kind [DirectPTRNotAllowed]. *)
Theorem load_records_ptr_type :
  forall (lib : IPLib) (fields : list (string * pyobj)) (rest : list pyobj)
         (host : pyobj) (pool : list pyobj),
    load_records (PList (PDict (("type", PStr "PTR") :: fields) :: rest)) host pool
    = (Err (Raised RuntimeError Builtin), pool)
    /\ error_kind (Raised RuntimeError Builtin) <> Some DirectPTRNotAllowed.
Proof.
  intros. split; [reflexivity|discriminate].
Qed.

(** C8 (defect of the code).  A raw record of type ["A"] is never built:
    line 23 narrows the accepted keys to ["record_type"], so the address of
    the mapping is not passed to [ARecord] and the call is a [TypeError],
    whatever the other keys of the mapping are. *)
Theorem load_records_a_record :
  forall (lib : IPLib) (fields : list (string * pyobj)) (rest : list pyobj)
         (host : pyobj) (pool : list pyobj),
    load_records (PList (PDict (("type", PStr "A") :: fields) :: rest)) host pool
    = (Err (Raised TypeError Builtin), pool).
Proof.
  intros. unfold load_records. cbn [iterate].
  unfold bind at 1. unfold lift at 1. cbn [load_records_loop].
  unfold bind at 1. unfold bind at 1. unfold lift at 1.
  assert (H : build_record (PDict (("type", PStr "A") :: fields))
              = Err (Raised TypeError Builtin)).
  { unfold build_record. cbn [subscript dict_lookup]. cbn [String.eqb Ascii.eqb Bool.eqb].
    cbn [rbind]. change (resolve_type (PStr "A")) with (Ok RecordType.A).
    cbn [rbind]. replace (isinstance (PEnum RecordType.A) CPTRRecord) with false by reflexivity.
    rewrite select_class_of_member. cbn [rbind].
    apply construct_without_payload. cbn; tauto. }
  now rewrite H.
Qed.

Example load_records_sample_record :
  load_records (lib := Ipaddress.lib) (PList [sample_record]) (PStr "example.com..") []
  = (Err (Raised TypeError Builtin), []).
Proof. reflexivity. Qed.

(** ** Source identifiers *)

Section Sources.
Context {lib : IPLib}.

Lemma ip_address_error (o : pyobj) (e : exn) :
  ip_address o = Err e -> e = Raised ValueError Builtin.
Proof.
  unfold ip_address. destruct (IPv4Address o); [discriminate|].
  destruct (IPv6Address o) as [[n sc]|]; [discriminate|]. now intros [= <-].
Qed.

Lemma ipaddr_eqb_refl (x : ipaddr) : ipaddr_eqb x x = true.
Proof.
  destruct x as [n|n [sc|]]; cbn; rewrite ?N.eqb_refl, ?String.eqb_refl; reflexivity.
Qed.

(** The method that [IPComparableMixin] defines does compare the parsed
    addresses. *)
Lemma mixin_eq_same_address (a b : pyobj) (ip : ipaddr) :
  ip_address a = Ok ip -> ip_address b = Ok ip ->
  IPComparableMixin_eq (RecursionSource a) (RecursionSource b) = Ok (Some true).
Proof.
  intros Ha Hb. cbn [IPComparableMixin_eq getattr_address]. unfold _ip.
  cbn [getattr_address]. rewrite Ha, Hb. cbn [rbind false_on_ValueError].
  now rewrite ipaddr_eqb_refl.
Qed.

(** The operator [==] between a pool entry and a decoded value: the
    generated [__eq__] answers [NotImplemented] for an operand of another
    class. *)
Lemma source_neq_decoded (src addr : pyobj) :
  is_source src = true -> class_of addr = None -> py_eq src addr = false.
Proof.
  intros Hs Ha. destruct src; try discriminate Hs; destruct addr; try discriminate Ha;
    reflexivity.
Qed.

Lemma find_source_decoded (pool : list pyobj) (addr : pyobj) (i : nat) :
  forallb is_source pool = true -> class_of addr = None ->
  find_source pool addr i = None.
Proof.
  intros Hp Ha. revert i. induction pool as [|src pool IH]; intros i; [reflexivity|].
  cbn [forallb] in Hp. apply andb_prop in Hp as [Hs Hp].
  cbn [find_source]. rewrite (source_neq_decoded _ _ Hs Ha). now apply IH.
Qed.

(** Lines 61-69 on a pool of source identifiers and decoded addresses: every
    listed address gets an entry of its own at the end of the pool. *)
Lemma intern_sources_appends (c : pyclass) (addrs : list pyobj) :
  forall (pool pool' : list pyobj) (refs : list nat),
    c = CRecursionSource \/ c = CRequestSource ->
    forallb is_source pool = true ->
    forallb (fun a => match class_of a with None => true | Some _ => false end) addrs = true ->
    intern_sources c addrs pool = (Ok refs, pool') ->
    refs = seq (List.length pool) (List.length addrs)
    /\ List.length pool' = List.length pool + List.length addrs.
Proof.
  induction addrs as [|addr addrs IH]; intros pool pool' refs Hc Hp Ha H.
  - injection H as <- <-. cbn. split; [reflexivity|lia].
  - cbn [forallb] in Ha. apply andb_prop in Ha as [Hd Ha].
    assert (Hnone : class_of addr = None) by (destruct (class_of addr); [discriminate Hd|reflexivity]).
    cbn [intern_sources] in H. unfold bind at 1 in H. unfold get at 1 in H.
    rewrite (find_source_decoded pool addr 0 Hp Hnone) in H.
    unfold bind at 1 in H. unfold bind at 1 in H. unfold lift at 1 in H.
    destruct (construct c [addr] []) as [src|e] eqn:Hsrc; [|discriminate H].
    unfold bind at 1 in H. unfold put at 1 in H. unfold ret at 1 in H.
    unfold bind at 1 in H.
    destruct (intern_sources c addrs (pool ++ [src])) as [[refs'|e] pool1] eqn:Hrest;
      [|discriminate H].
    unfold ret in H. injection H as <- <-.
    assert (Hsrc' : is_source src = true).
    { destruct Hc as [-> | ->]; unfold construct in Hsrc;
        cbn [bind_call forallb init_params bind_args has_key dict_lookup rbind] in Hsrc;
        destruct (ip_address addr); try discriminate Hsrc; cbn [rbind] in Hsrc;
        injection Hsrc as <-; reflexivity. }
    assert (Hp' : forallb is_source (pool ++ [src]) = true).
    { rewrite forallb_app, Hp. cbn [forallb]. now rewrite Hsrc'. }
    destruct (IH _ _ _ Hc Hp' Ha Hrest) as [-> Hlen].
    rewrite Hlen, length_app. cbn [List.length seq].
    replace (List.length pool + 1) with (S (List.length pool)) by lia.
    split; [reflexivity|lia].
Qed.

End Sources.

(** C5 (defect of the code).  ["::1"] and ["0:0:0:0:0:0:0:1"] are two texts of
    one address, and the method of [IPComparableMixin] would equate the two
    identifiers; the operator [==] does not, because [@dataclass] installs its
    own [__eq__] on [RecursionSource] and [RequestSource], which compares the
    texts, and sets [__hash__] to [None], so that hashing raises.  The lookup
    of lines 62-64 compares a pool entry with a string, which is never equal:
    a zone that lists the two texts, or one text twice, gets two pool entries
    and references both. *)
Theorem source_forms_not_collapsed :
  ip_address (lib := Ipaddress.lib) (PStr "::1") = Ok (IPv6 1 None)
  /\ ip_address (lib := Ipaddress.lib) (PStr "0:0:0:0:0:0:0:1") = Ok (IPv6 1 None)
  /\ IPComparableMixin_eq (lib := Ipaddress.lib) (RecursionSource (PStr "::1"))
       (RecursionSource (PStr "0:0:0:0:0:0:0:1")) = Ok (Some true)
  /\ py_eq (RecursionSource (PStr "::1")) (RecursionSource (PStr "0:0:0:0:0:0:0:1"))
     = false
  /\ py_eq (RequestSource (PStr "::1")) (RequestSource (PStr "0:0:0:0:0:0:0:1"))
     = false
  /\ py_hash_source (lib := Ipaddress.lib) (RecursionSource (PStr "::1"))
     = Err (Raised TypeError Builtin)
  /\ intern_sources (lib := Ipaddress.lib) CRecursionSource
       [PStr "::1"; PStr "0:0:0:0:0:0:0:1"] []
     = (Ok [0; 1],
        [RecursionSource (PStr "::1"); RecursionSource (PStr "0:0:0:0:0:0:0:1")])
  /\ intern_sources (lib := Ipaddress.lib) CRequestSource
       [PStr "127.0.0.1"; PStr "127.0.0.1"] []
     = (Ok [0; 1],
        [RequestSource (PStr "127.0.0.1"); RequestSource (PStr "127.0.0.1")]).
Proof.
  repeat split; reflexivity.
Qed.

(** C10.  Comparing a source identifier with a string never raises and is
    false whenever the string is not an address: the operator [==] answers
    [False], and the method [IPComparableMixin.__eq__] called on the two
    returns a boolean, which is [False] when [ip_address] refuses the
    string. *)
Theorem source_eq_str_total :
  forall (lib : IPLib) (src : pyobj) (s : string),
    is_source src = true ->
    py_eq src (PStr s) = false
    /\ exists b : bool,
         IPComparableMixin_eq src (PStr s) = Ok (Some b)
         /\ (forall e, ip_address (PStr s) = Err e -> b = false).
Proof.
  intros lib src s Hs. split; [now apply source_neq_decoded|].
  cbn [IPComparableMixin_eq]. unfold _ip.
  assert (Ha : exists a, getattr_address src = Some a)
    by (destruct src; try discriminate Hs; eexists; reflexivity).
  destruct Ha as [a ->].
  destruct (ip_address a) as [x|e] eqn:Hx.
  - destruct (ip_address (PStr s)) as [y|e] eqn:Hy; cbn [rbind].
    + exists (ipaddr_eqb x y). split; [reflexivity|]. intros e He. discriminate He.
    + rewrite (ip_address_error _ _ Hy). exists false. split; [reflexivity|auto].
  - rewrite (ip_address_error _ _ Hx). exists false. split; [reflexivity|auto].
Qed.

(** C10 on the identifier of ["127.0.0.1"] and the string ["localhost"]. *)
Lemma source_eq_str_total_witness :
  is_source (RecursionSource (PStr "127.0.0.1")) = true
  /\ py_eq (RecursionSource (PStr "127.0.0.1")) (PStr "localhost") = false
  /\ exists b : bool,
       IPComparableMixin_eq (lib := Ipaddress.lib)
         (RecursionSource (PStr "127.0.0.1")) (PStr "localhost") = Ok (Some b)
       /\ (forall e, ip_address (lib := Ipaddress.lib) (PStr "localhost") = Err e -> b = false).
Proof.
  split; [reflexivity|].
  apply (source_eq_str_total Ipaddress.lib (RecursionSource (PStr "127.0.0.1")) "localhost").
  reflexivity.
Defined.

(** ** Equality of records *)

(** Lines 35-36 keep the first of the instances that compare equal. *)
Lemma keep_record_known (records_ins : list pyobj) (record_ins : pyobj) :
  list_contains records_ins record_ins = true ->
  keep_record records_ins record_ins = records_ins.
Proof. intros H. unfold keep_record. now rewrite H. Qed.

Lemma keep_record_new (records_ins : list pyobj) (record_ins : pyobj) :
  list_contains records_ins record_ins = false ->
  keep_record records_ins record_ins = records_ins ++ [record_ins].
Proof. intros H. unfold keep_record. now rewrite H. Qed.

(** C6 (defect of the code).  Equality of two address records is the
    equality of [address], [ptr_record] and [record_type]: [ttl] is declared
    in [BaseRecord], which is not a dataclass, so it is neither compared nor
    accepted by the constructor.  Two records that differ in [ttl] alone
    compare equal, and lines 35-36 would keep the first of them only; given
    as raw records, the first one already stops [load_records] with the
    [TypeError] of the field extraction. *)
Theorem record_eq_ignores_ttl :
  forall (lib : IPLib) (ttl1 ttl2 a1 p1 r1 a2 p2 r2 host : pyobj) (pool : list pyobj),
    py_eq (ARecord ttl1 a1 p1 r1) (ARecord ttl2 a2 p2 r2)
    = py_eq a1 a2 && py_eq p1 p2 && py_eq r1 r2
    /\ py_eq (ARecord (PInt 60) (PStr "1.1.1.1") (PBool false) (PEnum RecordType.A))
             (ARecord (PInt 30) (PStr "1.1.1.1") (PBool false) (PEnum RecordType.A))
       = true
    /\ keep_record
         [ARecord (PInt 60) (PStr "1.1.1.1") (PBool false) (PEnum RecordType.A)]
         (ARecord (PInt 30) (PStr "1.1.1.1") (PBool false) (PEnum RecordType.A))
       = [ARecord (PInt 60) (PStr "1.1.1.1") (PBool false) (PEnum RecordType.A)]
    /\ bind_call CARecord [] [("address", PStr "1.1.1.1"); ("ttl", PInt 60)]
       = Err (Raised TypeError Builtin)
    /\ load_records
         (PList [PDict [("type", PStr "A"); ("address", PStr "1.1.1.1"); ("ttl", PInt 60)];
                 PDict [("type", PStr "A"); ("address", PStr "1.1.1.1"); ("ttl", PInt 30)]])
         host pool
       = (Err (Raised TypeError Builtin), pool).
Proof.
  intros. repeat split; reflexivity.
Qed.

(** ** A zone without namespace under a parent *)

Section UnnamedZone.
Context {lib : IPLib}.

(** Under a parent, a mapping whose namespace is empty is let through lines
    43-49 and stopped at line 52 when it declares records. *)
Lemma load_zone_unnamed_records (depth : nat) (zone : list (string * pyobj))
  (parent_zone ns recs : pyobj) (p : pools) :
  truthy parent_zone = true ->
  dict_lookup "namespace" zone = Some ns -> truthy ns = false ->
  dict_lookup "records" zone = Some recs -> truthy recs = true ->
  load_zone (S depth) (PDict zone) parent_zone p
  = (Err (Raised Exception (Text "root cant have a record")), p).
Proof.
  intros Hp Hns Hf Hrecs Ht. cbn [load_zone method_get]. rewrite Hns, Hrecs.
  unfold bind at 1. unfold lift at 1.
  unfold py_or. rewrite Hf.
  unfold bind at 1. unfold ret at 1. cbn [opt_str truthy]. rewrite Hp.
  cbn [negb andb]. unfold bind at 1. unfold ret at 1.
  unfold bind at 1. unfold lift at 1. rewrite Ht. reflexivity.
Qed.

End UnnamedZone.

(** C9 (defect of the code).  Line 41 turns an empty namespace into [None],
    so a zone loaded under a parent with the namespace [""] is taken for a
    root and never refused for its namespace.  With records it is stopped by
    the check meant for the root, the exception of line 52, of kind
    [RootRecordsNotAllowed]; without a ["records"] key, or with an empty
    value there, it goes on to [load_records], which raises
    [UnboundLocalError], or [TypeError] on a value that cannot be iterated.
    None of these is of kind [InvalidNamespace], and the shared lists are
    left as they were. *)
Theorem unnamed_subzone_not_refused :
  forall (lib : IPLib) (depth : nat) (fields : list (string * pyobj))
         (a b c d e f : pyobj) (p : pools),
    load_zone (S depth) (PDict (("namespace", PStr "") :: fields)) (Zone a b c d e f) p
    = (Err match dict_lookup "records" fields with
           | Some recs =>
               if truthy recs then Raised Exception (Text "root cant have a record")
               else match iterate recs with
                    | Ok _ => Raised UnboundLocalError Builtin
                    | Err err => err
                    end
           | None => Raised UnboundLocalError Builtin
           end, p)
    /\ error_kind (Raised Exception (Text "root cant have a record"))
       = Some RootRecordsNotAllowed
    /\ error_kind (Raised UnboundLocalError Builtin) = None
    /\ error_kind (Raised TypeError Builtin) = None
    /\ fst (load_zone (S depth)
              (PDict [("namespace", PStr ""); ("records", PList [sample_record])])
              (Zone a b c d e f) p)
       = Err (Raised Exception (Text "root cant have a record")).
Proof.
  intros lib depth fields a b c d e f p.
  split; [|repeat split].
  cbn [load_zone method_get dict_lookup String.eqb Ascii.eqb Bool.eqb].
  unfold bind at 1. unfold lift at 1.
  unfold py_or. cbn [truthy String.eqb negb].
  unfold bind at 1. unfold ret at 1. cbn [opt_str truthy negb andb].
  unfold bind at 1. unfold ret at 1.
  unfold bind at 1. unfold lift at 1.
  destruct (dict_lookup "records" fields) as [recs|] eqn:Hrecs.
  - destruct (truthy recs) eqn:Ht; cbn [negb andb]; [reflexivity|].
    unfold bind at 1. unfold lift at 1. cbn [zone_host].
    unfold bind at 1. unfold lift at 1.
    apply bind_raises. unfold zoom, load_records.
    destruct recs as [| | |s|items|items| | | | | | | | | |]; try discriminate Ht;
      try (destruct s; [|discriminate Ht]);
      try (destruct items; [|discriminate Ht]);
      cbn; now rewrite set_ptr_records_same.
  - cbn [truthy negb andb].
    unfold bind at 1. unfold lift at 1. cbn [zone_host].
    unfold bind at 1. unfold lift at 1.
    apply bind_raises. unfold zoom, load_records. cbn. now rewrite set_ptr_records_same.
Qed.

(** ** The shared list of reverse-pointer records *)

Section PtrPool.
Context {lib : IPLib}.

Lemma py_eq_ptr_of (x y : string * string) :
  py_eq (ptr_of x) (ptr_of y) = true <-> x = y.
Proof.
  destruct x as [h a], y as [h' a']. cbn [ptr_of py_eq fst snd RecordType.eqb].
  rewrite andb_true_r, andb_true_iff, !String.eqb_eq.
  split; [intros [-> ->]; reflexivity|intros [= -> ->]; auto].
Qed.

Lemma contains_ptr_of (l : list (string * string)) (x : string * string) :
  list_contains (map ptr_of l) (ptr_of x) = true <-> In x l.
Proof.
  unfold list_contains. rewrite existsb_exists. split.
  - intros [e [Hin He]]. apply in_map_iff in Hin as [y [<- Hy]].
    apply py_eq_ptr_of in He. now subst.
  - intros H. exists (ptr_of x). split; [now apply in_map|now apply py_eq_ptr_of].
Qed.

Lemma count_ptr_of_absent (l : list (string * string)) (x : string * string) :
  ~ In x l -> count_eq (ptr_of x) (map ptr_of l) = 0.
Proof.
  unfold count_eq. induction l as [|y l IH]; intros Hx; [reflexivity|].
  cbn [map filter]. destruct (py_eq (ptr_of y) (ptr_of x)) eqn:E.
  - apply py_eq_ptr_of in E. subst y. exfalso. apply Hx. now left.
  - apply IH. intros H. apply Hx. now right.
Qed.

Lemma count_ptr_of_present (l : list (string * string)) (x : string * string) :
  NoDup l -> In x l -> count_eq (ptr_of x) (map ptr_of l) = 1.
Proof.
  unfold count_eq. induction l as [|y l IH]; intros Hnd Hx; [destruct Hx|].
  apply NoDup_cons_iff in Hnd as [Hy Hnd].
  cbn [map filter]. destruct (py_eq (ptr_of y) (ptr_of x)) eqn:E.
  - apply py_eq_ptr_of in E. subst y. cbn [List.length]. f_equal.
    now apply count_ptr_of_absent.
  - apply IH; [assumption|]. destruct Hx as [->|Hx]; [|assumption].
    assert (py_eq (ptr_of x) (ptr_of x) = true) by now apply py_eq_ptr_of.
    congruence.
Qed.

(** What the call of line 30 builds. *)
Lemma construct_ptr (host : string) (address : pyobj) :
  construct CPTRRecord [PStr host; address] [] =
  match ip_address address with
  | Ok ip =>
      match reverse_pointer ip with
      | Some rp => Ok (ptr_of (host, rp))
      | None => Err (Raised ValueError Builtin)
      end
  | Err e => Err e
  end.
Proof.
  unfold construct. cbn [bind_call forallb init_params bind_args has_key dict_lookup rbind].
  destruct (ip_address address); reflexivity.
Qed.

(** One run of lines 29-33 keeps the list free of duplicates, removes
    nothing from it, and leaves in it the record that was asked for. *)
Lemma synth_ptr_step (host : string) (record : pyobj) (l : list (string * string))
  (pool' : list pyobj) :
  NoDup l ->
  synth_ptr (PStr host) record (map ptr_of l) = (Ok tt, pool') ->
  exists l',
    pool' = map ptr_of l' /\ NoDup l' /\ incl l l'
    /\ (wants_ptr record = true ->
        exists address ip rp,
          getattr_address record = Some address /\ ip_address address = Ok ip
          /\ reverse_pointer ip = Some rp /\ In (host, rp) l').
Proof.
  intros Hnd H. unfold synth_ptr in H.
  destruct (wants_ptr record) eqn:Hw.
  - assert (Ha : exists a, getattr_address record = Some a).
    { unfold wants_ptr in Hw. destruct record; cbn in Hw; try discriminate Hw;
        eexists; reflexivity. }
    destruct Ha as [a Ha]. rewrite Ha, construct_ptr in H.
    unfold bind at 1 in H. unfold lift at 1 in H.
    destruct (ip_address a) as [ip|e] eqn:Hip; [|discriminate H].
    destruct (reverse_pointer ip) as [rp|] eqn:Hrp; [|discriminate H].
    unfold bind at 1 in H. unfold get at 1 in H.
    destruct (list_contains (map ptr_of l) (ptr_of (host, rp))) eqn:Hin;
      cbn [negb] in H.
    + injection H as <-. exists l. repeat split; auto using incl_refl.
      intros _. exists a, ip, rp. repeat split; auto. now apply contains_ptr_of.
    + injection H as <-. exists (l ++ [(host, rp)]).
      assert (Hnot : ~ In (host, rp) l).
      { intros Hc. apply contains_ptr_of in Hc. congruence. }
      repeat split.
      * now rewrite map_app.
      * apply NoDup_app; [assumption|repeat constructor; intros []|].
        intros x Hx [<-|[]]. contradiction.
      * now apply incl_appl, incl_refl.
      * intros _. exists a, ip, rp. repeat split; auto.
        apply in_or_app. right. now left.
  - injection H as <-. exists l. repeat split; auto using incl_refl.
    intros Hc. discriminate Hc.
Qed.

Lemma synth_all_invariant (built : list (string * pyobj)) :
  forall (l : list (string * string)) (pool' : list pyobj),
    NoDup l ->
    synth_all built (map ptr_of l) = (Ok tt, pool') ->
    exists l',
      pool' = map ptr_of l' /\ NoDup l' /\ incl l l'
      /\ forall host record,
           In (host, record) built -> wants_ptr record = true ->
           exists address ip rp,
             getattr_address record = Some address /\ ip_address address = Ok ip
             /\ reverse_pointer ip = Some rp /\ In (host, rp) l'.
Proof.
  induction built as [|[h r] built IH]; intros l pool' Hnd H.
  - injection H as <-. exists l. repeat split; auto using incl_refl.
    intros host record [].
  - unfold synth_all in H. cbn [for_each fst snd] in H. unfold bind at 1 in H.
    destruct (synth_ptr (PStr h) r (map ptr_of l)) as [[[]|e] pool1] eqn:Hstep;
      [|discriminate H].
    destruct (synth_ptr_step h r l pool1 Hnd Hstep) as [l1 [-> [Hnd1 [Hincl1 Hptr1]]]].
    destruct (IH l1 pool' Hnd1 H) as [l' [-> [Hnd' [Hincl' Hptr']]]].
    exists l'. repeat split; auto.
    + now apply incl_tran with l1.
    + intros host record [[= <- <-]|Hin] Hw.
      * destruct (Hptr1 Hw) as [a [ip [rp [Ha [Hip [Hrp Hl1]]]]]].
        exists a, ip, rp. repeat split; auto.
      * now apply Hptr'.
Qed.

End PtrPool.



(** X27.  Lines 29-33 taken alone, run once for each record of a sequence
    of built records, with the host of its zone, over one list that starts
    empty: when all the runs return, then for every address record among
    them whose [ptr_record] is true, of whatever zone, the list holds exactly
    one entry equal to the reverse-pointer record of its host and address. *)
Theorem ptr_pool_exactly_one :
  forall (lib : IPLib) (built : list (string * pyobj)) (pool : list pyobj),
    synth_all built [] = (Ok tt, pool) ->
    forall (host : string) (record : pyobj),
      In (host, record) built -> wants_ptr record = true ->
      exists address ip rp,
        getattr_address record = Some address /\ ip_address address = Ok ip
        /\ reverse_pointer ip = Some rp
        /\ count_eq (PTRRecord PNone (PStr host) (PStr rp) (PEnum RecordType.PTR)) pool = 1.
Proof.
  intros lib built pool H host record Hin Hw.
  destruct (synth_all_invariant built [] pool (NoDup_nil _) H)
    as [l' [-> [Hnd [_ Hptr]]]].
  destruct (Hptr host record Hin Hw) as [a [ip [rp [Ha [Hip [Hrp Hl]]]]]].
  exists a, ip, rp. repeat split; auto.
  now apply (count_ptr_of_present l' (host, rp)).
Qed.

(** X27 on three requests for one address, from two zones: two entries, one
    for each host. *)
Lemma ptr_pool_exactly_one_witness :
  synth_all (lib := Ipaddress.lib) sample_built []
  = (Ok tt, [ptr_of ("example.com.", "34.216.184.93.in-addr.arpa");
             ptr_of ("example.org.", "34.216.184.93.in-addr.arpa")])
  /\ In ("example.com.", sample_built_record) sample_built
  /\ wants_ptr sample_built_record = true
  /\ exists address ip rp,
       getattr_address sample_built_record = Some address
       /\ ip_address (lib := Ipaddress.lib) address = Ok ip
       /\ reverse_pointer (IPLib := Ipaddress.lib) ip = Some rp
       /\ count_eq (PTRRecord PNone (PStr "example.com.") (PStr rp) (PEnum RecordType.PTR))
            [ptr_of ("example.com.", "34.216.184.93.in-addr.arpa");
             ptr_of ("example.org.", "34.216.184.93.in-addr.arpa")] = 1.
Proof.
  split; [reflexivity|]. split; [left; reflexivity|]. split; [reflexivity|].
  apply (ptr_pool_exactly_one Ipaddress.lib sample_built
           [ptr_of ("example.com.", "34.216.184.93.in-addr.arpa");
            ptr_of ("example.org.", "34.216.184.93.in-addr.arpa")]
           eq_refl "example.com." sample_built_record).
  - left; reflexivity.
  - reflexivity.
Defined.

(** * Further properties of the sources *)

(** ** [validate_hostname] *)

Lemma prefix_space (s : string) :
  String.prefix " " s =
  match s with
  | EmptyString => false
  | String c _ => Ascii.eqb " " c
  end.
Proof.
  destruct s as [|c s]; [reflexivity|]. cbn [String.prefix].
  destruct (ascii_dec " " c) as [<-|Hne].
  - rewrite Ascii.eqb_refl. now destruct s.
  - symmetry. now apply Ascii.eqb_neq.
Qed.

Lemma substring_space (s : string) : substring_of " " s = has_space s.
Proof.
  unfold has_space. induction s as [|c s IH]; [reflexivity|].
  cbn [substring_of list_ascii_of_string existsb]. rewrite prefix_space. now rewrite IH.
Qed.

Lemma has_space_false (s : string) :
  has_space s = false <-> forall c, In c (list_ascii_of_string s) -> c <> " "%char.
Proof.
  unfold has_space. split.
  - intros H c Hin ->. 
    assert (existsb (Ascii.eqb " ") (list_ascii_of_string s) = true).
    { apply existsb_exists. exists " "%char. split; [assumption|apply Ascii.eqb_refl]. }
    congruence.
  - intros H. destruct (existsb _ _) eqn:E; [|reflexivity].
    apply existsb_exists in E as [c [Hin Hc]]. apply Ascii.eqb_eq in Hc. subst c.
    now destruct (H _ Hin).
Qed.

(** X1.  [validate_hostname] on a string: it passes exactly when it is not
    empty and holds no space character (no other character is looked at, so
    a tab or a line break passes); the empty string is refused with "Hostname
    cannot be empty" and a string with a space with "Invalid hostname", both
    of kind [InvalidHostname]. *)
Theorem validate_hostname_on_strings :
  forall s : string,
    (validate_hostname (PStr s) = Ok tt
     <-> s <> "" /\ forall c, In c (list_ascii_of_string s) -> c <> " "%char)
    /\ (s = "" ->
        validate_hostname (PStr s)
        = Err (Raised ValueError (Text "Hostname cannot be empty")))
    /\ (In " "%char (list_ascii_of_string s) ->
        validate_hostname (PStr s) = Err (Raised ValueError (Text "Invalid hostname")))
    /\ error_kind (Raised ValueError (Text "Hostname cannot be empty")) = Some InvalidHostname
    /\ error_kind (Raised ValueError (Text "Invalid hostname")) = Some InvalidHostname.
Proof.
  intros s.
  assert (E : validate_hostname (PStr s) =
              if String.eqb s "" then Err (Raised ValueError (Text "Hostname cannot be empty"))
              else if has_space s then Err (Raised ValueError (Text "Invalid hostname"))
              else Ok tt).
  { unfold validate_hostname. cbn [truthy str_in rbind]. rewrite negb_involutive.
    now rewrite substring_space. }
  rewrite E. split; [|split; [|split; [|split; reflexivity]]].
  - rewrite <- has_space_false. destruct (String.eqb s "") eqn:Es.
    + apply String.eqb_eq in Es. split; [discriminate|intros [H _]; contradiction].
    + apply String.eqb_neq in Es. destruct (has_space s); split; try discriminate; auto.
      intros [_ H]. discriminate H.
  - intros ->. reflexivity.
  - intros Hin. destruct s as [|ch s]; [destruct Hin|]. cbn [String.eqb].
    destruct (has_space (String ch s)) eqn:Hs; [reflexivity|].
    destruct (proj1 (has_space_false _) Hs _ Hin). reflexivity.
Qed.

(** ** The constructors of the record classes *)

Section Constructors.
Context {lib : IPLib}.

Lemma unknown_keyword (params kwargs : list (string * pyobj)) (key : string) (v : pyobj) :
  dict_lookup key kwargs = Some v -> has_key key params = false ->
  forallb (fun kv => has_key (fst kv) params) kwargs = false.
Proof.
  intros Hk Hp. induction kwargs as [|[k w] kwargs IH]; [discriminate Hk|].
  cbn [forallb fst]. cbn [dict_lookup] in Hk.
  destruct (String.eqb k key) eqn:E.
  - apply String.eqb_eq in E. subst k. now rewrite Hp.
  - rewrite (IH Hk). apply andb_false_r.
Qed.

Lemma construct_unknown_keyword (c : pyclass) (args : list pyobj)
  (kwargs : list (string * pyobj)) (key : string) (v : pyobj) :
  dict_lookup key kwargs = Some v ->
  has_key key (map (fun p => (fst p, PNone)) (init_params c)) = false ->
  construct c args kwargs = Err (Raised TypeError Builtin).
Proof.
  intros Hk Hp. unfold construct, bind_call.
  now rewrite (unknown_keyword _ _ _ _ Hk Hp).
Qed.

End Constructors.

(** X2.  No class of zone.py takes a [ttl]: called with that keyword, whatever
    the other arguments, each of the eight constructors raises [TypeError]. *)
Theorem constructors_reject_ttl :
  forall (lib : IPLib) (c : pyclass) (args : list pyobj)
         (kwargs : list (string * pyobj)) (v : pyobj),
    dict_lookup "ttl" kwargs = Some v ->
    construct c args kwargs = Err (Raised TypeError Builtin).
Proof.
  intros lib c args kwargs v Hk.
  apply (construct_unknown_keyword c args kwargs "ttl" v Hk).
  destruct c; reflexivity.
Qed.

Lemma constructors_reject_ttl_witness :
  dict_lookup "ttl" [("text", PStr "hello"); ("ttl", PInt 60)] = Some (PInt 60)
  /\ construct (lib := Ipaddress.lib) CTXTRecord []
       [("text", PStr "hello"); ("ttl", PInt 60)]
     = Err (Raised TypeError Builtin).
Proof.
  split; [reflexivity|].
  apply (constructors_reject_ttl Ipaddress.lib CTXTRecord []
           [("text", PStr "hello"); ("ttl", PInt 60)] (PInt 60)).
  reflexivity.
Defined.

Section BuiltRecords.
Context {lib : IPLib}.

Lemma ip_address_raises (o : pyobj) (e : exn) :
  ip_address o = Err e -> e = Raised ValueError Builtin.
Proof.
  unfold ip_address. destruct (IPv4Address o); [discriminate|].
  destruct (IPv6Address o) as [[n sc]|]; [discriminate|]. now intros [= <-].
Qed.

Lemma validate_hostname_kind (name : pyobj) (e : exn) :
  validate_hostname name = Err e -> error_kind e <> Some InvalidTTL.
Proof.
  unfold validate_hostname. destruct (truthy name); cbn [negb].
  - destruct (str_in " " name) as [[|]|e'] eqn:Hs; cbn [rbind];
      intros [= <-]; try discriminate.
    destruct name; try discriminate Hs; injection Hs as <-; discriminate.
  - intros [= <-]. discriminate.
Qed.

(** What comes out of a constructor: an object whose [ttl] is [None], or an
    exception that is not of kind [InvalidTTL]. *)
Lemma construct_outcome (c : pyclass) (args : list pyobj) (kwargs : list (string * pyobj)) :
  match construct c args kwargs with
  | Ok r => getattr_ttl r = None \/ getattr_ttl r = Some PNone
  | Err e => error_kind e <> Some InvalidTTL
  end.
Proof.
  unfold construct. destruct (bind_call c args kwargs) as [bound|e] eqn:Hb.
  - cbn [rbind].
    destruct c; destruct bound as [|b1 [|b2 [|b3 [|b4 [|b5 [|b6 [|b7 bound]]]]]]];
      cbn [BaseRecord_post_init rbind]; try discriminate.
    + destruct (IPv4Address b1); [right; reflexivity|discriminate].
    + destruct (IPv6Address b1); [right; reflexivity|discriminate].
    + destruct (validate_hostname b1) as [[]|e] eqn:Hv; cbn [rbind];
        [right; reflexivity|]. now apply (validate_hostname_kind b1).
    + destruct (py_len b1) as [n|e] eqn:Hl; cbn [rbind].
      * destruct (255 <? n)%nat; [discriminate|right; reflexivity].
      * destruct b1; try discriminate Hl; injection Hl as <-; discriminate.
    + destruct (ip_address b2) as [ip|e] eqn:Hip; cbn [rbind].
      * destruct (reverse_pointer ip); [right; reflexivity|discriminate].
      * rewrite (ip_address_raises _ _ Hip). discriminate.
    + destruct (ip_address b1) as [ip|e] eqn:Hip; cbn [rbind]; [left; reflexivity|].
      rewrite (ip_address_raises _ _ Hip). discriminate.
    + destruct (ip_address b1) as [ip|e] eqn:Hip; cbn [rbind]; [left; reflexivity|].
      rewrite (ip_address_raises _ _ Hip). discriminate.
    + left; reflexivity.
  - cbn [rbind]. unfold bind_call in Hb.
    assert (Hargs : forall params a k e', bind_args params a k = Err e' ->
                                          e' = Raised TypeError Builtin).
    { induction params as [|[n d] params IH]; intros a k e' H; cbn [bind_args] in H.
      - destruct a; [discriminate H|now injection H as <-].
      - destruct a as [|x a].
        + destruct (dict_lookup n k), d;
            try (destruct (bind_args params [] k) eqn:Hr; cbn [rbind] in H;
                 [discriminate H|injection H as <-; now apply (IH [] k)]).
          now injection H as <-.
        + destruct (has_key n k); [now injection H as <-|].
          destruct (bind_args params a k) eqn:Hr; cbn [rbind] in H;
            [discriminate H|injection H as <-; now apply (IH a k)]. }
    destruct (forallb _ kwargs).
    + rewrite (Hargs _ _ _ _ Hb). discriminate.
    + injection Hb as <-. discriminate.
Qed.

End BuiltRecords.

(** X3.  [BaseRecord.__post_init__] never sees a [ttl]: every object that a
    constructor of zone.py returns has [ttl = None] (when it has the
    attribute), and no constructor raises either of the two TTL errors. *)
Theorem ttl_never_set :
  forall (lib : IPLib) (c : pyclass) (args : list pyobj) (kwargs : list (string * pyobj)),
    match construct c args kwargs with
    | Ok r => getattr_ttl r = None \/ getattr_ttl r = Some PNone
    | Err e =>
        error_kind e <> Some InvalidTTL
        /\ e <> Raised TypeError (Text "TTL must be int")
        /\ e <> Raised ValueError (Text "TTL must be >= 0")
    end.
Proof.
  intros lib c args kwargs. pose proof (construct_outcome c args kwargs) as H.
  destruct (construct c args kwargs) as [r|e]; [exact H|].
  repeat split; [exact H| |]; intros ->; now apply H.
Qed.

(** X4.  The bound of [TXTRecord]: a text given as a string, by position or
    by keyword, is accepted exactly when it has at most 255 characters,
    whatever the number of bytes of its encoding; a longer one is refused
    with the error of kind [TextTooLong]. *)
Theorem txt_record_bound :
  forall (lib : IPLib) (s : string),
    construct CTXTRecord [PStr s] [] = construct CTXTRecord [] [("text", PStr s)]
    /\ (List.length (characters s) <= 255 ->
        construct CTXTRecord [PStr s] []
        = Ok (TXTRecord PNone (PStr s) (PEnum RecordType.TXT)))
    /\ (255 < List.length (characters s) ->
        construct CTXTRecord [PStr s] []
        = Err (Raised ValueError (Text "TXT record cant have more then 255 character")))
    /\ error_kind (Raised ValueError (Text "TXT record cant have more then 255 character"))
       = Some TextTooLong.
Proof.
  intros lib s. repeat split.
  - intros H. unfold construct.
    cbn [bind_call forallb init_params bind_args has_key dict_lookup rbind
         BaseRecord_post_init py_len].
    apply Nat.ltb_ge in H. now rewrite H.
  - intros H. unfold construct.
    cbn [bind_call forallb init_params bind_args has_key dict_lookup rbind
         BaseRecord_post_init py_len].
    apply Nat.ltb_lt in H. now rewrite H.
Qed.

Lemma txt_record_bound_witness :
  (List.length (characters (String.concat "" (repeat euro_sign 86))) <= 255
   /\ String.length (String.concat "" (repeat euro_sign 86)) = 258
   /\ 255 < List.length (characters (String.concat "" (repeat "0123456789abcdef" 16))))
  /\ construct (lib := Ipaddress.lib) CTXTRecord
       [PStr (String.concat "" (repeat euro_sign 86))] []
     = Ok (TXTRecord PNone (PStr (String.concat "" (repeat euro_sign 86)))
             (PEnum RecordType.TXT))
  /\ construct (lib := Ipaddress.lib) CTXTRecord
       [PStr (String.concat "" (repeat "0123456789abcdef" 16))] []
     = Err (Raised ValueError (Text "TXT record cant have more then 255 character")).
Proof.
  split; [repeat split; vm_compute; lia|]. split.
  - apply (txt_record_bound Ipaddress.lib (String.concat "" (repeat euro_sign 86))).
    vm_compute; lia.
  - apply (txt_record_bound Ipaddress.lib (String.concat "" (repeat "0123456789abcdef" 16))).
    vm_compute; lia.
Defined.

(** X5.  [PTRRecord] keeps the reverse pointer of the parsed address, not the
    text it was given: two texts of one address, with one host, build the
    same record, and the record holds the reverse pointer as its address. *)
Theorem ptr_record_canonical :
  forall (lib : IPLib) (host a b : pyobj) (ip : ipaddr),
    ip_address a = Ok ip -> ip_address b = Ok ip ->
    construct CPTRRecord [host; a] [] = construct CPTRRecord [host; b] []
    /\ forall r, construct CPTRRecord [host; a] [] = Ok r ->
         exists rp, reverse_pointer ip = Some rp
                    /\ r = PTRRecord PNone host (PStr rp) (PEnum RecordType.PTR).
Proof.
  intros lib host a b ip Ha Hb. unfold construct.
  cbn [bind_call forallb init_params bind_args has_key dict_lookup rbind].
  rewrite Ha, Hb. cbn [rbind]. split; [reflexivity|].
  intros r. destruct (reverse_pointer ip) as [rp|]; [|discriminate].
  intros [= <-]. now exists rp.
Qed.

Lemma ptr_record_canonical_witness :
  (ip_address (lib := Ipaddress.lib) (PStr "::1") = Ok (IPv6 1 None)
   /\ ip_address (lib := Ipaddress.lib) (PStr "0:0:0:0:0:0:0:1") = Ok (IPv6 1 None))
  /\ construct (lib := Ipaddress.lib) CPTRRecord [PStr "host."; PStr "::1"] []
     = construct (lib := Ipaddress.lib) CPTRRecord [PStr "host."; PStr "0:0:0:0:0:0:0:1"] []
  /\ forall r,
       construct (lib := Ipaddress.lib) CPTRRecord [PStr "host."; PStr "::1"] [] = Ok r ->
       exists rp, reverse_pointer (IPLib := Ipaddress.lib) (IPv6 1 None) = Some rp
                  /\ r = PTRRecord PNone (PStr "host.") (PStr rp) (PEnum RecordType.PTR).
Proof.
  split; [split; reflexivity|].
  apply (ptr_record_canonical Ipaddress.lib (PStr "host.") (PStr "::1")
           (PStr "0:0:0:0:0:0:0:1") (IPv6 1 None)); reflexivity.
Defined.

(** ** [IPComparableMixin] as it is written *)

Lemma ipaddr_eqb_eq (x y : ipaddr) : ipaddr_eqb x y = true <-> x = y.
Proof.
  split.
  - destruct x as [a|a [s|]], y as [b|b [t|]]; cbn [ipaddr_eqb]; try discriminate;
      rewrite ?andb_true_iff, ?N.eqb_eq, ?String.eqb_eq.
    + now intros ->.
    + now intros [-> ->].
    + intros [_ H]; discriminate H.
    + intros [_ H]; discriminate H.
    + now intros [-> _].
  - intros <-. destruct x as [a|a [s|]]; cbn [ipaddr_eqb];
      rewrite ?N.eqb_refl, ?String.eqb_refl; reflexivity.
Qed.

Lemma ipaddr_eqb_sym (x y : ipaddr) : ipaddr_eqb x y = ipaddr_eqb y x.
Proof.
  destruct (ipaddr_eqb x y) eqn:E.
  - apply ipaddr_eqb_eq in E. subst y. symmetry. now apply ipaddr_eqb_eq.
  - destruct (ipaddr_eqb y x) eqn:E'; [|reflexivity].
    apply ipaddr_eqb_eq in E'. subst y.
    assert (ipaddr_eqb x x = true) by now apply ipaddr_eqb_eq. congruence.
Qed.

Section MixinMethods.
Context {lib : IPLib}.

Lemma source_address (src : pyobj) :
  is_source src = true -> exists a, getattr_address src = Some a.
Proof. destruct src; try discriminate; intros _; eexists; reflexivity. Qed.

(** The method between two objects that hold the addresses [a] and [b]. *)
Lemma mixin_eq_value (s1 s2 a b : pyobj) :
  is_source s1 = true -> is_source s2 = true ->
  getattr_address s1 = Some a -> getattr_address s2 = Some b ->
  IPComparableMixin_eq s1 s2 =
  Ok (Some match ip_address a, ip_address b with
           | Ok x, Ok y => ipaddr_eqb x y
           | _, _ => false
           end).
Proof.
  intros H1 H2 Ha Hb.
  assert (E : IPComparableMixin_eq s1 s2 =
              false_on_ValueError
                (let? x := _ip s1 in let? y := ip_address b in Ok (ipaddr_eqb x y))).
  { destruct s2; try discriminate H2; cbn [IPComparableMixin_eq getattr_address];
      cbn [getattr_address] in Hb; now injection Hb as <-. }
  rewrite E. unfold _ip. rewrite Ha.
  destruct (ip_address a) as [x|e] eqn:Hx; cbn [rbind].
  - destruct (ip_address b) as [y|e] eqn:Hy; cbn [rbind]; [reflexivity|].
    now rewrite (ip_address_raises _ _ Hy).
  - now rewrite (ip_address_raises _ _ Hx).
Qed.

End MixinMethods.

(** X6.  [IPComparableMixin.__eq__] between two source identifiers, of the
    same class or one of each, never raises and answers a boolean; the answer
    is [True] exactly when both addresses parse and to the same address, and it
    does not depend on the order of the two operands. *)
Theorem mixin_eq_between_sources :
  forall (lib : IPLib) (s1 s2 : pyobj),
    is_source s1 = true -> is_source s2 = true ->
    IPComparableMixin_eq s1 s2 = IPComparableMixin_eq s2 s1
    /\ exists b : bool,
         IPComparableMixin_eq s1 s2 = Ok (Some b)
         /\ (b = true <-> exists ip, _ip s1 = Ok ip /\ _ip s2 = Ok ip).
Proof.
  intros lib s1 s2 H1 H2.
  destruct (source_address s1 H1) as [a Ha], (source_address s2 H2) as [b Hb].
  rewrite (mixin_eq_value s1 s2 a b H1 H2 Ha Hb), (mixin_eq_value s2 s1 b a H2 H1 Hb Ha).
  unfold _ip. rewrite Ha, Hb. split.
  - destruct (ip_address a), (ip_address b); try reflexivity.
    now rewrite ipaddr_eqb_sym.
  - eexists. split; [reflexivity|].
    destruct (ip_address a) as [x|e], (ip_address b) as [y|e'].
    + rewrite ipaddr_eqb_eq. split.
      * intros ->. now exists y.
      * intros [ip [[= ->] [= ->]]]. reflexivity.
    + split; [discriminate|]. intros [ip [_ H]]. discriminate H.
    + split; [discriminate|]. intros [ip [H _]]. discriminate H.
    + split; [discriminate|]. intros [ip [H _]]. discriminate H.
Qed.

Lemma mixin_eq_between_sources_witness :
  (is_source (RecursionSource (PStr "::1")) = true
   /\ is_source (RequestSource (PStr "0:0:0:0:0:0:0:1")) = true)
  /\ IPComparableMixin_eq (lib := Ipaddress.lib)
       (RecursionSource (PStr "::1")) (RequestSource (PStr "0:0:0:0:0:0:0:1"))
     = IPComparableMixin_eq (lib := Ipaddress.lib)
         (RequestSource (PStr "0:0:0:0:0:0:0:1")) (RecursionSource (PStr "::1"))
  /\ exists b : bool,
       IPComparableMixin_eq (lib := Ipaddress.lib)
         (RecursionSource (PStr "::1")) (RequestSource (PStr "0:0:0:0:0:0:0:1"))
       = Ok (Some b)
       /\ (b = true <->
           exists ip, _ip (lib := Ipaddress.lib) (RecursionSource (PStr "::1")) = Ok ip
                      /\ _ip (lib := Ipaddress.lib)
                           (RequestSource (PStr "0:0:0:0:0:0:0:1")) = Ok ip).
Proof.
  split; [split; reflexivity|].
  apply (mixin_eq_between_sources Ipaddress.lib (RecursionSource (PStr "::1"))
           (RequestSource (PStr "0:0:0:0:0:0:0:1"))); reflexivity.
Defined.

(** X7.  The two methods of [IPComparableMixin] agree: two source identifiers
    that [__eq__] answers [True] for have the same [__hash__]. *)
Theorem mixin_eq_implies_hash :
  forall (lib : IPLib) (s1 s2 : pyobj),
    is_source s1 = true -> is_source s2 = true ->
    IPComparableMixin_eq s1 s2 = Ok (Some true) ->
    IPComparableMixin_hash s1 = IPComparableMixin_hash s2
    /\ exists ip, IPComparableMixin_hash s1 = Ok ip.
Proof.
  intros lib s1 s2 H1 H2 He.
  destruct (source_address s1 H1) as [a Ha], (source_address s2 H2) as [b Hb].
  rewrite (mixin_eq_value s1 s2 a b H1 H2 Ha Hb) in He.
  unfold IPComparableMixin_hash, _ip. rewrite Ha, Hb.
  destruct (ip_address a) as [x|e], (ip_address b) as [y|e']; try discriminate He.
  injection He as He. apply ipaddr_eqb_eq in He. subst y. split; [reflexivity|now exists x].
Qed.

Lemma mixin_eq_implies_hash_witness :
  (is_source (RecursionSource (PStr "::1")) = true
   /\ is_source (RecursionSource (PStr "0:0:0:0:0:0:0:1")) = true
   /\ IPComparableMixin_eq (lib := Ipaddress.lib) (RecursionSource (PStr "::1"))
        (RecursionSource (PStr "0:0:0:0:0:0:0:1")) = Ok (Some true))
  /\ IPComparableMixin_hash (lib := Ipaddress.lib) (RecursionSource (PStr "::1"))
     = IPComparableMixin_hash (lib := Ipaddress.lib)
         (RecursionSource (PStr "0:0:0:0:0:0:0:1"))
  /\ exists ip,
       IPComparableMixin_hash (lib := Ipaddress.lib) (RecursionSource (PStr "::1")) = Ok ip.
Proof.
  split; [repeat split; reflexivity|].
  apply (mixin_eq_implies_hash Ipaddress.lib (RecursionSource (PStr "::1"))
           (RecursionSource (PStr "0:0:0:0:0:0:0:1"))); reflexivity.
Defined.

(** X8.  A source identifier that its constructor returned holds the text it
    was given, which parses; [IPComparableMixin.__eq__] of such an identifier
    with any value at all returns (a boolean or [NotImplemented]) and never
    raises. *)
Theorem constructed_source_eq_total :
  forall (lib : IPLib) (c : pyclass) (address src other : pyobj),
    c = CRecursionSource \/ c = CRequestSource ->
    construct c [address] [] = Ok src ->
    src = source_of c address
    /\ (exists ip, ip_address address = Ok ip)
    /\ exists r, IPComparableMixin_eq src other = Ok r.
Proof.
  intros lib c address src other Hc H.
  assert (Hs : src = source_of c address /\ exists ip, ip_address address = Ok ip).
  { destruct Hc as [-> | ->]; unfold construct in H;
      cbn [bind_call forallb init_params bind_args has_key dict_lookup rbind] in H;
      destruct (ip_address address) as [ip|e]; try discriminate H;
      cbn [rbind] in H; injection H as <-; (split; [reflexivity|now exists ip]). }
  destruct Hs as [-> [ip Hip]]. split; [reflexivity|]. split; [now exists ip|].
  assert (Hself : _ip (source_of c address) = Ok ip)
    by (destruct Hc as [-> | ->]; exact Hip).
  assert (Htry : forall o, exists r,
             false_on_ValueError
               (let? x := _ip (source_of c address) in
                let? y := ip_address o in Ok (ipaddr_eqb x y)) = Ok r).
  { intros o. rewrite Hself. cbn [rbind].
    destruct (ip_address o) as [y|e] eqn:Hy; cbn [rbind].
    - eexists; reflexivity.
    - rewrite (ip_address_raises _ _ Hy). eexists; reflexivity. }
  destruct other; cbn [IPComparableMixin_eq getattr_address];
    try apply Htry; try (eexists; reflexivity).
  rewrite Hself. eexists; reflexivity.
Qed.

Lemma constructed_source_eq_total_witness :
  ((CRequestSource = CRecursionSource \/ CRequestSource = CRequestSource)
   /\ construct (lib := Ipaddress.lib) CRequestSource [PStr "10.0.0.1"] []
      = Ok (RequestSource (PStr "10.0.0.1")))
  /\ RequestSource (PStr "10.0.0.1") = source_of CRequestSource (PStr "10.0.0.1")
  /\ (exists ip, ip_address (lib := Ipaddress.lib) (PStr "10.0.0.1") = Ok ip)
  /\ exists r,
       IPComparableMixin_eq (lib := Ipaddress.lib) (RequestSource (PStr "10.0.0.1"))
         (PAddr (IPv4 167772161)) = Ok r.
Proof.
  split; [split; [right; reflexivity|reflexivity]|].
  apply (constructed_source_eq_total Ipaddress.lib CRequestSource (PStr "10.0.0.1")
           (RequestSource (PStr "10.0.0.1")) (PAddr (IPv4 167772161))).
  - right; reflexivity.
  - reflexivity.
Defined.

(** ** [Zone.host] *)

Lemma str_append_assoc (s t u : string) :
  ((s ++ t) ++ u = s ++ (t ++ u))%string.
Proof. induction s as [|ch s IH]; cbn; [reflexivity|now rewrite IH]. Qed.

(** The sum of a value and a string is defined on a string only. *)
Lemma py_add_string {lib : IPLib} (a v : pyobj) (t : string) :
  py_add a (PStr t) = Ok v -> exists s, a = PStr s /\ v = PStr (s ++ t).
Proof.
  unfold py_add. destruct a; cbn [int_value]; try discriminate.
  - intros [= <-]. eauto.
  - destruct ip; discriminate.
Qed.

Lemma host_ends_with_separator {lib : IPLib} (depth : nat) (z v : pyobj) :
  zone_ancestry z = true -> host depth z = Ok v ->
  exists prefix, v = PStr (prefix ++ ".").
Proof.
  revert depth v.
  induction z; intros depth v Hz Hh; try discriminate Hz.
  destruct depth as [|depth]; [discriminate Hh|].
  cbn [host] in Hh. cbn [zone_ancestry] in Hz.
  destruct (truthy z6) eqn:Hp; cbn [negb orb] in Hz, Hh.
  - destruct (host depth z6) as [right|e] eqn:Hr; [|discriminate Hh].
    cbn [rbind] in Hh.
    destruct (IHz6 depth right Hz Hr) as [prefix ->].
    destruct (py_add_string _ _ _ Hh) as [s [_ ->]].
    exists (s ++ prefix)%string. now rewrite str_append_assoc.
  - cbn [rbind] in Hh.
    destruct (py_add_string _ _ _ Hh) as [s [_ ->]]. now exists s.
Qed.

(** An address object held as a label is added to the integer that a
    [PTRRecord] above holds as its [host]; past the range the library
    refuses the sum, and [load_zone] under such a parent ends with that
    exception. *)
Example host_address_label_overflow :
  host (lib := Ipaddress.lib) 1
    (Zone (PAddr (IPv4 4294967295)) (PList []) (PList []) (PList []) (PList [])
       (PTRRecord PNone (PInt 1) (PStr "1.0.0.127.in-addr.arpa") (PEnum RecordType.PTR)))
  = Err (Raised ValueError Builtin)
  /\ load_zone (lib := Ipaddress.lib) 2 (PDict [("namespace", PStr "a.")])
       (Zone (PAddr (IPv4 4294967295)) (PList []) (PList []) (PList []) (PList [])
          (PTRRecord PNone (PInt 1) (PStr "1.0.0.127.in-addr.arpa") (PEnum RecordType.PTR)))
       no_pools
     = (Err (Raised ValueError Builtin), no_pools).
Proof. split; reflexivity. Qed.

(** Under a [PTRRecord], [Zone.host] adds the label to the [host] attribute
    of the record. *)
Example host_over_ptr_record :
  host (lib := Ipaddress.lib) 1
    (Zone (PStr "a") (PList []) (PList []) (PList []) (PList [])
       (PTRRecord PNone (PStr "h") (PStr "1.0.0.127.in-addr.arpa") (PEnum RecordType.PTR)))
  = Ok (PStr "ah").
Proof. reflexivity. Qed.

(** X9.  On a chain of zones that hold their labels, [Zone.host] returns the
    labels put end to end, innermost first, followed by the separator of the
    root: it inserts nothing between two labels, and an empty label adds
    nothing.  Each zone of the chain, the root included, takes one nested
    call; a chain longer than the interpreter allows ends in
    [RecursionError]. *)
Theorem host_of_zone_chain :
  forall (lib : IPLib) (depth : nat) (labels : list string),
    host depth (zone_chain labels) =
    if (List.length labels <? depth)%nat
    then Ok (PStr (String.concat "" labels ++ "."))
    else Err (Raised RecursionError Builtin).
Proof.
  intros lib depth labels. revert depth.
  induction labels as [|label rest IH]; intros [|depth]; try reflexivity.
  cbn [zone_chain host]. rewrite IH.
  replace (truthy (zone_chain rest)) with true by (destruct rest; reflexivity).
  cbn [negb List.length].
  replace (S (List.length rest) <? S depth)%nat with (List.length rest <? depth)%nat
    by reflexivity.
  destruct (List.length rest <? depth)%nat; [|reflexivity].
  cbn [rbind]. unfold py_or.
  assert (E : (String.concat "" (label :: rest) ++ ".")%string
              = (label ++ String.concat "" rest ++ ".")%string).
  { destruct rest as [|r rest]; [reflexivity|].
    cbn [String.concat]. cbn [String.append]. now rewrite str_append_assoc. }
  rewrite E. destruct (truthy (PStr label)) eqn:Ht; [reflexivity|].
  cbn [truthy] in Ht. apply negb_false_iff, String.eqb_eq in Ht. now subst label.
Qed.

(** X10.  On a zone whose ancestors are all zones, whatever their fields
    hold, when [Zone.host] returns, it returns a string that ends with the
    separator ["."], so it is never empty.  (A [PTRRecord] among the
    ancestors would give its own [host] attribute instead, as
    [host_over_ptr_record] shows.) *)
Theorem host_result_ends_with_separator :
  forall (lib : IPLib) (depth : nat) (z v : pyobj),
    zone_ancestry z = true -> host depth z = Ok v ->
    exists h, v = PStr h /\ (exists prefix, h = (prefix ++ ".")%string) /\ h <> "".
Proof.
  intros lib depth z v Hz H.
  destruct (host_ends_with_separator depth z v Hz H) as [prefix ->].
  eexists. split; [reflexivity|]. split; [now exists prefix|].
  destruct prefix; discriminate.
Qed.

Lemma host_result_ends_with_separator_witness :
  zone_ancestry (zone_chain ["www."; "example."; "com"]) = true
  /\ host (lib := Ipaddress.lib) 1000 (zone_chain ["www."; "example."; "com"])
     = Ok (PStr "www.example.com.")
  /\ exists h, PStr "www.example.com." = PStr h
               /\ (exists prefix, h = (prefix ++ ".")%string) /\ h <> "".
Proof.
  split; [reflexivity|]. split; [reflexivity|].
  apply (host_result_ends_with_separator Ipaddress.lib 1000
           (zone_chain ["www."; "example."; "com"])); reflexivity.
Defined.

(** ** The registry and the type of a raw record *)

Lemma getitem_name (m : RecordType.t) :
  RecordType.getitem (RecordType.name m) = Some m.
Proof. destruct m; reflexivity. Qed.

Lemma getitem_some (key : string) (m : RecordType.t) :
  RecordType.getitem key = Some m -> key = RecordType.name m.
Proof.
  unfold RecordType.getitem. intros H. apply find_some in H as [_ H].
  apply String.eqb_eq in H. now symmetry.
Qed.

(** X11.  Line 14 resolves the type of a raw record exactly when it is a
    string that is the name of a member of [RecordType], and then to that
    member: names and members correspond one to one, and no other value (a
    member's name in lower case, a number, a list) is resolved. *)
Theorem resolve_type_iff_member_name :
  forall (type : pyobj) (m : RecordType.t),
    resolve_type type = Ok m <-> type = PStr (RecordType.name m).
Proof.
  intros type m. split.
  - unfold resolve_type. destruct (hashable type); cbn [negb]; [|discriminate].
    destruct type; try discriminate.
    destruct (RecordType.getitem s) as [m'|] eqn:E; [|discriminate].
    intros [= ->]. now rewrite (getitem_some s m E).
  - intros ->. unfold resolve_type. cbn [hashable negb]. now rewrite getitem_name.
Qed.

Section RawRecords.
Context {lib : IPLib}.

Lemma load_records_first (record : pyobj) (rest : list pyobj) (host : pyobj)
  (pool : list pyobj) (e : exn) :
  build_record record = Err e ->
  load_records (PList (record :: rest)) host pool = (Err e, pool).
Proof.
  intros H. unfold load_records. cbn [iterate].
  unfold bind at 1. unfold lift at 1. cbn [load_records_loop].
  unfold bind at 1. unfold bind at 1. unfold lift at 1. now rewrite H.
Qed.

End RawRecords.

(** X12.  A raw record whose type is a string that names no member of
    [RecordType] stops [load_records] with [ValueError("record type
    undefined")], of kind [UnknownRecordType], whatever else the record and
    the records after it hold; the shared list is left as it was. *)
Theorem load_records_unknown_type :
  forall (lib : IPLib) (type : string) (fields : list (string * pyobj))
         (rest : list pyobj) (host : pyobj) (pool : list pyobj),
    RecordType.getitem type = None ->
    load_records (PList (PDict (("type", PStr type) :: fields) :: rest)) host pool
    = (Err (Raised ValueError (Text "record type undefined")), pool)
    /\ error_kind (Raised ValueError (Text "record type undefined"))
       = Some UnknownRecordType.
Proof.
  intros lib type fields rest host pool H. split; [|reflexivity].
  apply load_records_first. unfold build_record.
  cbn [subscript dict_lookup String.eqb Ascii.eqb Bool.eqb rbind].
  unfold resolve_type. cbn [hashable negb]. now rewrite H.
Qed.

Lemma load_records_unknown_type_witness :
  RecordType.getitem "MX" = None
  /\ load_records (lib := Ipaddress.lib)
       (PList [PDict [("type", PStr "MX"); ("target", PStr "mail.example.com.")];
               sample_record])
       (PStr ".") []
     = (Err (Raised ValueError (Text "record type undefined")), [])
  /\ error_kind (Raised ValueError (Text "record type undefined"))
     = Some UnknownRecordType.
Proof.
  split; [reflexivity|].
  apply (load_records_unknown_type Ipaddress.lib "MX"
           [("target", PStr "mail.example.com.")] [sample_record] (PStr ".") []).
  reflexivity.
Defined.

(** X13.  A raw record that is a mapping without the key ["type"] stops
    [load_records] with [KeyError] at line 11, an exception that the
    specification gives no kind to; the shared list is left as it was. *)
Theorem load_records_missing_type :
  forall (lib : IPLib) (record : list (string * pyobj)) (rest : list pyobj)
         (host : pyobj) (pool : list pyobj),
    dict_lookup "type" record = None ->
    load_records (PList (PDict record :: rest)) host pool
    = (Err (Raised KeyError Builtin), pool)
    /\ error_kind (Raised KeyError Builtin) = None.
Proof.
  intros lib record rest host pool H. split; [|reflexivity].
  apply load_records_first. unfold build_record. cbn [subscript]. now rewrite H.
Qed.

Lemma load_records_missing_type_witness :
  dict_lookup "type" [("address", PStr "93.184.216.34")] = None
  /\ load_records (lib := Ipaddress.lib)
       (PList [PDict [("address", PStr "93.184.216.34")]]) (PStr ".") []
     = (Err (Raised KeyError Builtin), [])
  /\ error_kind (Raised KeyError Builtin) = None.
Proof.
  split; [reflexivity|].
  apply (load_records_missing_type Ipaddress.lib [("address", PStr "93.184.216.34")] []
           (PStr ".") []).
  reflexivity.
Defined.

(** X14.  [load_records] never gets past its first raw record: on a list that
    is not empty it does what it does on the first record alone, whatever
    follows, and it appends nothing to the list of reverse-pointer records. *)
Theorem load_records_stops_at_first :
  forall (lib : IPLib) (record : pyobj) (rest : list pyobj) (host : pyobj)
         (pool : list pyobj),
    load_records (PList (record :: rest)) host pool
    = load_records (PList [record]) host pool
    /\ snd (load_records (PList (record :: rest)) host pool) = pool.
Proof.
  intros lib record rest host pool.
  destruct (build_record_raises record) as [e He].
  rewrite (load_records_first record rest host pool e He).
  rewrite (load_records_first record [] host pool e He). split; reflexivity.
Qed.

(** ** [load_zone] under a parent *)

(** X15.  A namespace that is true and not a string (a number, a list, a
    mapping) is refused at line 43 with "namespace should be an string", of
    kind [InvalidNamespace], with or without a parent and before anything
    else of the mapping is read. *)
Theorem load_zone_namespace_not_string :
  forall (lib : IPLib) (depth : nat) (zone : list (string * pyobj))
         (parent_zone v : pyobj) (p : pools),
    dict_lookup "namespace" zone = Some v -> truthy v = true -> is_str v = false ->
    load_zone (S depth) (PDict zone) parent_zone p
    = (Err (Raised Exception (Text "namespace should be an string")), p)
    /\ error_kind (Raised Exception (Text "namespace should be an string"))
       = Some InvalidNamespace.
Proof.
  intros lib depth zone parent_zone v p Hv Ht Hs. split; [|reflexivity].
  cbn [load_zone method_get]. rewrite Hv. unfold bind at 1. unfold lift at 1.
  unfold py_or. rewrite Ht.
  destruct v; try discriminate Ht; try discriminate Hs; reflexivity.
Qed.

Lemma load_zone_namespace_not_string_witness :
  (dict_lookup "namespace" [("namespace", PInt 5); ("records", PInt 7)] = Some (PInt 5)
   /\ truthy (PInt 5) = true /\ is_str (PInt 5) = false)
  /\ load_zone (lib := Ipaddress.lib) 1000
       (PDict [("namespace", PInt 5); ("records", PInt 7)]) root_zone no_pools
     = (Err (Raised Exception (Text "namespace should be an string")), no_pools)
  /\ error_kind (Raised Exception (Text "namespace should be an string"))
     = Some InvalidNamespace.
Proof.
  split; [repeat split; reflexivity|].
  apply (load_zone_namespace_not_string Ipaddress.lib 999
           [("namespace", PInt 5); ("records", PInt 7)] root_zone (PInt 5) no_pools);
    reflexivity.
Defined.

(** X16.  The check of line 43 comes after [or None] at line 41, so a
    namespace that is false without being a string ([0], [False], an empty
    list or mapping) is not refused: the mapping is loaded exactly as if its
    namespace were [None]. *)
Theorem load_zone_false_namespace :
  forall (lib : IPLib) (depth : nat) (v : pyobj) (rest : list (string * pyobj))
         (parent_zone : pyobj) (p : pools),
    truthy v = false ->
    load_zone depth (PDict (("namespace", v) :: rest)) parent_zone p
    = load_zone depth (PDict (("namespace", PNone) :: rest)) parent_zone p.
Proof.
  intros lib depth v rest parent_zone p Hv. destruct depth as [|depth]; [reflexivity|].
  cbn [load_zone method_get dict_lookup String.eqb Ascii.eqb Bool.eqb].
  unfold bind at 1 3. unfold lift at 1 6. unfold py_or. rewrite Hv. reflexivity.
Qed.

Lemma load_zone_false_namespace_witness :
  truthy (PInt 0) = false
  /\ load_zone (lib := Ipaddress.lib) 1000
       (PDict [("namespace", PInt 0); ("records", PList [sample_record])])
       root_zone no_pools
     = load_zone (lib := Ipaddress.lib) 1000
         (PDict [("namespace", PNone); ("records", PList [sample_record])])
         root_zone no_pools.
Proof.
  split; [reflexivity|].
  apply (load_zone_false_namespace Ipaddress.lib 1000 (PInt 0)
           [("records", PList [sample_record])] root_zone no_pools).
  reflexivity.
Defined.



(** ** The pools of source identifiers *)

Section SourcePools.
Context {lib : IPLib}.

(** Lines 61-69 on addresses that are all new texts of addresses: each gets
    an entry of its own, and the loop goes on with what follows. *)
Lemma intern_sources_prefix (c : pyclass) (good tail : list pyobj) :
  c = CRecursionSource \/ c = CRequestSource ->
  Forall (fun a => class_of a = None /\ exists ip, ip_address a = Ok ip) good ->
  forall pool : list pyobj,
    forallb is_source pool = true ->
    intern_sources c (good ++ tail) pool =
    match intern_sources c tail (pool ++ map (source_of c) good) with
    | (Ok refs, pool') => (Ok (seq (List.length pool) (List.length good) ++ refs), pool')
    | (Err e, pool') => (Err e, pool')
    end.
Proof.
  intros Hc Hgood. induction Hgood as [|a good [Ha [ip Hip]] Hgood IH]; intros pool Hp.
  - cbn [app map List.length seq]. rewrite app_nil_r.
    now destruct (intern_sources c tail pool) as [[refs|e] pool'].
  - cbn [app intern_sources]. unfold bind at 1. unfold get at 1.
    rewrite (find_source_decoded pool a 0 Hp Ha).
    assert (Hsrc : construct c [a] [] = Ok (source_of c a)).
    { destruct Hc as [-> | ->]; unfold construct;
        cbn [bind_call forallb init_params bind_args has_key dict_lookup rbind];
        now rewrite Hip. }
    unfold bind at 1. unfold bind at 1. unfold lift at 1. rewrite Hsrc.
    unfold bind at 1. unfold put at 1. unfold ret at 1. unfold bind at 1.
    assert (Hp' : forallb is_source (pool ++ [source_of c a]) = true).
    { rewrite forallb_app, Hp. destruct Hc as [-> | ->]; reflexivity. }
    rewrite (IH _ Hp'). cbn [map]. rewrite <- app_assoc. cbn [app].
    rewrite length_app. cbn [List.length]. rewrite Nat.add_1_r.
    destruct (intern_sources c tail (pool ++ source_of c a :: map (source_of c) good))
      as [[refs|e] pool']; reflexivity.
Qed.

End SourcePools.

(** X18.  When every address that a zone lists is the text of an address,
    lines 61-69 (and 73-81) append one identifier for each of them to the
    shared list, in the order of the zone and repeated addresses included,
    and the zone references exactly these new entries; the entries that the
    list had are neither reused nor changed. *)
Theorem intern_sources_appends_all :
  forall (lib : IPLib) (c : pyclass) (addrs pool : list pyobj),
    c = CRecursionSource \/ c = CRequestSource ->
    Forall (fun a => class_of a = None /\ exists ip, ip_address a = Ok ip) addrs ->
    forallb is_source pool = true ->
    intern_sources c addrs pool
    = (Ok (seq (List.length pool) (List.length addrs)), pool ++ map (source_of c) addrs).
Proof.
  intros lib c addrs pool Hc Ha Hp.
  pose proof (intern_sources_prefix c addrs [] Hc Ha pool Hp) as H.
  rewrite app_nil_r in H. rewrite H. cbn [intern_sources]. unfold ret.
  now rewrite app_nil_r.
Qed.

Lemma intern_sources_appends_all_witness :
  ((CRecursionSource = CRecursionSource \/ CRecursionSource = CRequestSource)
   /\ Forall (fun a => class_of a = None
                       /\ exists ip, ip_address (lib := Ipaddress.lib) a = Ok ip)
        [PStr "10.0.0.1"; PStr "10.0.0.2"; PStr "10.0.0.1"]
   /\ forallb is_source [RecursionSource (PStr "10.0.0.1")] = true)
  /\ intern_sources (lib := Ipaddress.lib) CRecursionSource
       [PStr "10.0.0.1"; PStr "10.0.0.2"; PStr "10.0.0.1"]
       [RecursionSource (PStr "10.0.0.1")]
     = (Ok (seq 1 3),
        [RecursionSource (PStr "10.0.0.1")]
        ++ map (source_of CRecursionSource)
             [PStr "10.0.0.1"; PStr "10.0.0.2"; PStr "10.0.0.1"]).
Proof.
  assert (H : Forall (fun a => class_of a = None
                               /\ exists ip, ip_address (lib := Ipaddress.lib) a = Ok ip)
                [PStr "10.0.0.1"; PStr "10.0.0.2"; PStr "10.0.0.1"]).
  { repeat constructor; eexists; reflexivity. }
  split; [split; [left; reflexivity|split; [exact H|reflexivity]]|].
  apply (intern_sources_appends_all Ipaddress.lib CRecursionSource
           [PStr "10.0.0.1"; PStr "10.0.0.2"; PStr "10.0.0.1"]
           [RecursionSource (PStr "10.0.0.1")]).
  - left; reflexivity.
  - exact H.
  - reflexivity.
Defined.

(** X19.  When an address that a zone lists is not the text of an address,
    the loop of lines 61-69 leaves with the [ValueError] of the library, and
    the shared list keeps the identifiers that were appended for the
    addresses listed before it: the failure does not undo them. *)
Theorem intern_sources_failure_keeps_entries :
  forall (lib : IPLib) (c : pyclass) (good rest pool : list pyobj) (bad : pyobj) (e : exn),
    c = CRecursionSource \/ c = CRequestSource ->
    Forall (fun a => class_of a = None /\ exists ip, ip_address a = Ok ip) good ->
    class_of bad = None -> ip_address bad = Err e ->
    forallb is_source pool = true ->
    intern_sources c (good ++ bad :: rest) pool
    = (Err (Raised ValueError Builtin), pool ++ map (source_of c) good).
Proof.
  intros lib c good rest pool bad e Hc Hgood Hb He Hp.
  rewrite (intern_sources_prefix c good (bad :: rest) Hc Hgood pool Hp).
  assert (Hp' : forallb is_source (pool ++ map (source_of c) good) = true).
  { rewrite forallb_app, Hp. cbn [andb]. clear. induction good as [|a good IH];
      [reflexivity|]. cbn [map forallb]. rewrite IH.
      destruct c; reflexivity. }
  cbn [intern_sources]. unfold bind at 1. unfold get at 1.
  rewrite (find_source_decoded _ bad 0 Hp' Hb).
  unfold bind at 1. unfold bind at 1. unfold lift at 1.
  assert (Hsrc : construct c [bad] [] = Err (Raised ValueError Builtin)).
  { rewrite (ip_address_raises _ _ He) in He.
    destruct Hc as [-> | ->]; unfold construct;
      cbn [bind_call forallb init_params bind_args has_key dict_lookup rbind];
      now rewrite He. }
  now rewrite Hsrc.
Qed.

Lemma intern_sources_failure_keeps_entries_witness :
  ((CRequestSource = CRecursionSource \/ CRequestSource = CRequestSource)
   /\ Forall (fun a => class_of a = None
                       /\ exists ip, ip_address (lib := Ipaddress.lib) a = Ok ip)
        [PStr "10.0.0.1"]
   /\ class_of (PStr "localhost") = None
   /\ ip_address (lib := Ipaddress.lib) (PStr "localhost") = Err (Raised ValueError Builtin)
   /\ forallb is_source [] = true)
  /\ intern_sources (lib := Ipaddress.lib) CRequestSource
       ([PStr "10.0.0.1"] ++ PStr "localhost" :: [PStr "10.0.0.2"]) []
     = (Err (Raised ValueError Builtin), [] ++ map (source_of CRequestSource) [PStr "10.0.0.1"]).
Proof.
  assert (H : Forall (fun a => class_of a = None
                               /\ exists ip, ip_address (lib := Ipaddress.lib) a = Ok ip)
                [PStr "10.0.0.1"]).
  { repeat constructor; eexists; reflexivity. }
  split; [repeat split; try reflexivity; [right; reflexivity|exact H]|].
  apply (intern_sources_failure_keeps_entries Ipaddress.lib CRequestSource
           [PStr "10.0.0.1"] [PStr "10.0.0.2"] [] (PStr "localhost")
           (Raised ValueError Builtin)); try reflexivity.
  - right; reflexivity.
  - exact H.
Defined.

(** ** The records of one zone *)

Lemma contains_false (l : list pyobj) (x : pyobj) :
  list_contains l x = false -> Forall (fun e => py_eq e x = false) l.
Proof.
  unfold list_contains. induction l as [|e l IH]; [constructor|].
  cbn [existsb]. intros H. apply orb_false_iff in H as [He Hl].
  constructor; [exact He|now apply IH].
Qed.

Lemma ordered_pairs_snoc (l : list pyobj) (x : pyobj) :
  ForallOrdPairs (fun a b => py_eq a b = false) l ->
  Forall (fun e => py_eq e x = false) l ->
  ForallOrdPairs (fun a b => py_eq a b = false) (l ++ [x]).
Proof.
  induction 1 as [|a l Ha Hl IH]; intros Hx.
  - cbn. repeat constructor.
  - cbn [app]. apply Forall_cons_iff in Hx as [Hax Hx]. constructor.
    + apply Forall_app. split; [exact Ha|now constructor].
    + now apply IH.
Qed.

Lemma keep_records_invariant (built : list pyobj) :
  forall acc : list pyobj,
    ForallOrdPairs (fun a b => py_eq a b = false) acc ->
    ForallOrdPairs (fun a b => py_eq a b = false) (keep_records built acc)
    /\ incl acc (keep_records built acc)
    /\ (forall r, In r built ->
          In r (keep_records built acc)
          \/ exists e, In e (keep_records built acc) /\ py_eq e r = true)
    /\ (forall e, In e (keep_records built acc) -> In e acc \/ In e built).
Proof.
  unfold keep_records. induction built as [|r built IH]; intros acc Hacc.
  - cbn [fold_left]. split; [exact Hacc|]. split; [apply incl_refl|].
    split; [intros r []|intros e He; now left].
  - cbn [fold_left]. destruct (list_contains acc r) eqn:Hc.
    + rewrite (keep_record_known acc r Hc).
      destruct (IH acc Hacc) as [Hp [Hi [Hb He]]].
      split; [exact Hp|]. split; [exact Hi|]. split.
      * intros x [<-|Hx]; [|now apply Hb]. right.
        unfold list_contains in Hc. apply existsb_exists in Hc as [e [Hin Heq]].
        exists e. split; [now apply Hi|exact Heq].
      * intros e Hin. destruct (He e Hin) as [H|H]; [now left|right; now right].
    + rewrite (keep_record_new acc r Hc).
      assert (Hacc' : ForallOrdPairs (fun a b => py_eq a b = false) (acc ++ [r]))
        by (apply ordered_pairs_snoc; [exact Hacc|now apply contains_false]).
      destruct (IH (acc ++ [r]) Hacc') as [Hp [Hi [Hb He]]].
      split; [exact Hp|]. split; [|split].
      * intros x Hx. apply Hi. apply in_or_app. now left.
      * intros x [<-|Hx]; [|now apply Hb]. left. apply Hi. apply in_or_app. right. now left.
      * intros e Hin. destruct (He e Hin) as [H|H]; [|right; now right].
        apply in_app_or in H as [H|[<-|[]]]; [now left|right; now left].
Qed.

(** X20.  What lines 35-36 leave in [records_ins] after any sequence of built
    records: no entry compares equal to a later one, every entry is one of
    the built records, and every built record is either an entry or compares
    equal to an entry, so of equal records one is kept. *)
Theorem keep_records_no_duplicates :
  forall built : list pyobj,
    ForallOrdPairs (fun a b => py_eq a b = false) (keep_records built [])
    /\ incl (keep_records built []) built
    /\ forall r, In r built ->
         In r (keep_records built [])
         \/ exists e, In e (keep_records built []) /\ py_eq e r = true.
Proof.
  intros built.
  destruct (keep_records_invariant built [] (FOP_nil _)) as [Hp [_ [Hb He]]].
  split; [exact Hp|]. split; [|exact Hb].
  intros e Hin. now destruct (He e Hin) as [[]|H].
Qed.

(** ** The list of reverse-pointer records *)

Section PtrPoolGrowth.
Context {lib : IPLib}.

Lemma synth_ptr_grows (host record : pyobj) (pool : list pyobj) :
  exists ext,
    snd (synth_ptr host record pool) = pool ++ ext
    /\ Forall (fun e => isinstance e CPTRRecord = true) ext.
Proof.
  unfold synth_ptr. destruct (wants_ptr record); [|exists []; now rewrite app_nil_r].
  unfold bind at 1. unfold lift at 1.
  destruct (construct CPTRRecord _ []) as [ptr|e] eqn:Hc;
    [|exists []; now rewrite app_nil_r].
  assert (Hptr : isinstance ptr CPTRRecord = true).
  { unfold construct in Hc.
    cbn [bind_call forallb init_params bind_args has_key dict_lookup rbind] in Hc.
    destruct (ip_address _) as [ip|e]; [|discriminate Hc]. cbn [rbind] in Hc.
    destruct (reverse_pointer ip); [|discriminate Hc]. now injection Hc as <-. }
  unfold bind at 1. unfold get at 1.
  destruct (list_contains pool ptr); cbn [negb].
  - exists []. now rewrite app_nil_r.
  - exists [ptr]. split; [reflexivity|now constructor].
Qed.

Lemma synth_all_grows (built : list (string * pyobj)) :
  forall pool : list pyobj,
    exists ext,
      snd (synth_all built pool) = pool ++ ext
      /\ Forall (fun e => isinstance e CPTRRecord = true) ext.
Proof.
  unfold synth_all. induction built as [|[h r] built IH]; intros pool.
  - exists []. now rewrite app_nil_r.
  - cbn [for_each fst snd]. unfold bind at 1.
    destruct (synth_ptr_grows (PStr h) r pool) as [ext [He Hf]].
    destruct (synth_ptr (PStr h) r pool) as [[[]|e] pool1]; cbn [snd] in He; subst pool1.
    + destruct (IH (pool ++ ext)) as [ext' [He' Hf']].
      exists (ext ++ ext'). rewrite He', app_assoc. split; [reflexivity|].
      apply Forall_app. now split.
    + now exists ext.
Qed.

End PtrPoolGrowth.

(** X21.  Lines 29-33 only ever append to the list of reverse-pointer
    records: after any sequence of runs, from any list, and also when a run
    raises, the list is the list it was followed by new [PTRRecord] objects;
    no entry is removed, replaced or moved. *)
Theorem synth_all_only_appends :
  forall (lib : IPLib) (built : list (string * pyobj)) (pool : list pyobj),
    exists ext,
      snd (synth_all built pool) = pool ++ ext
      /\ Forall (fun e => isinstance e CPTRRecord = true) ext.
Proof.
  intros lib built pool. apply synth_all_grows.
Qed.

(** ** Equality between classes *)

(** X22.  An instance of a class of zone.py never compares equal to an
    instance of another of these classes, nor to a decoded value, on either
    side of [==]: an A record and an AAAA record with the same fields differ,
    and so do a [RecursionSource] and a [RequestSource] of one address. *)
Theorem instances_of_distinct_classes_differ :
  forall a b : pyobj,
    class_of a <> None -> class_of a <> class_of b ->
    py_eq a b = false /\ py_eq b a = false.
Proof.
  intros a b H1 H2.
  destruct a; try (exfalso; apply H1; reflexivity);
    destruct b; try (split; reflexivity); exfalso; apply H2; reflexivity.
Qed.

Lemma instances_of_distinct_classes_differ_witness :
  (class_of (RecursionSource (PStr "10.0.0.1")) <> None
   /\ class_of (RecursionSource (PStr "10.0.0.1")) <> class_of (RequestSource (PStr "10.0.0.1")))
  /\ py_eq (RecursionSource (PStr "10.0.0.1")) (RequestSource (PStr "10.0.0.1")) = false
  /\ py_eq (RequestSource (PStr "10.0.0.1")) (RecursionSource (PStr "10.0.0.1")) = false.
Proof.
  split; [split; discriminate|].
  apply (instances_of_distinct_classes_differ (RecursionSource (PStr "10.0.0.1"))
           (RequestSource (PStr "10.0.0.1"))); discriminate.
Defined.

(** ** [load_db] *)

Section EntryPoint.
Context {lib : IPLib}.

Lemma load_zone_root_kind (depth : nat) (zone : list (string * pyobj)) (p : pools) :
  exists e,
    load_zone depth (PDict zone) PNone p = (Err e, p)
    /\ error_kind e <> Some ConfigFormatError.
Proof.
  destruct depth as [|depth]; [eexists; split; [reflexivity|discriminate]|].
  destruct (py_or_none_cases
              (match dict_lookup "namespace" zone with Some v => v | None => PNone end))
    as [H|[H Ht]].
  - exists (Raised AttributeError Builtin). split; [|discriminate].
    apply load_zone_root_unnamed. unfold py_or in H.
    destruct (truthy match dict_lookup "namespace" zone with
                     | Some v => v | None => PNone end) eqn:E; [|reflexivity].
    rewrite H in E. discriminate E.
  - cbn [load_zone method_get]. unfold bind at 1. unfold lift at 1.
    destruct (dict_lookup "namespace" zone) as [v|]; [|discriminate Ht].
    rewrite H.
    destruct v; try discriminate Ht;
      try (eexists; split; [reflexivity|discriminate]).
    unfold bind at 1. unfold ret at 1. cbn [opt_str]. rewrite Ht.
    eexists; split; [reflexivity|discriminate].
Qed.

End EntryPoint.

(** X23.  [load_db] returns no zone.  It hands [json.load] the text of the
    file where a file object is expected, which raises [AttributeError]; and
    lines 102-113, run on any decoded value, raise as well, with the error of
    kind [ConfigFormatError] exactly when the value is not a mapping. *)
Theorem load_db_never_loads :
  forall (lib : IPLib) (depth : nat) (contents : string) (data : pyobj),
    load_db depth contents = Err (Raised AttributeError Builtin)
    /\ exists e,
         load_db_decoded depth data = Err e
         /\ (error_kind e = Some ConfigFormatError <-> is_dict data = false).
Proof.
  intros lib depth contents data. split; [reflexivity|].
  unfold load_db_decoded. destruct (is_dict data) eqn:Hd; cbn [negb].
  - destruct data; try discriminate Hd.
    destruct (load_zone_root_kind depth items (Pools [] [] [])) as [e [He Hk]].
    exists e. rewrite He. split; [reflexivity|]. split; [contradiction|discriminate].
  - eexists. split; [reflexivity|]. split; reflexivity.
Qed.

(** ** An accepted address record and its reverse pointer *)

Section AddressRecords.
Context {lib : IPLib}.

Lemma built_address_record (c : pyclass) (args : list pyobj)
  (kwargs : list (string * pyobj)) (r : pyobj) :
  c = CARecord \/ c = CAAAARecord ->
  construct c args kwargs = Ok r ->
  exists a ip, getattr_address r = Some a /\ ip_address a = Ok ip.
Proof.
  intros Hc H. unfold construct in H.
  destruct (bind_call c args kwargs) as [bound|e]; [|discriminate H]. cbn [rbind] in H.
  destruct Hc as [-> | ->];
    destruct bound as [|a [|b2 [|b3 [|b4 bound]]]]; try discriminate H;
    cbn [BaseRecord_post_init rbind] in H.
  - destruct (IPv4Address a) as [n|] eqn:E; [|discriminate H]. injection H as <-.
    exists a, (IPv4 n). split; [reflexivity|]. unfold ip_address. now rewrite E.
  - destruct (IPv6Address a) as [[n sc]|] eqn:E; [|discriminate H]. injection H as <-.
    exists a. unfold ip_address. rewrite E.
    destruct (IPv4Address a) as [m|]; eexists; split; reflexivity.
Qed.

End AddressRecords.

(** X24.  The address of an A or AAAA record that its constructor returned is
    one that [ip_address] accepts, so line 30 does not fail on it: when such
    a record asks for a reverse pointer and the address has one, lines 29-33
    return, and the shared list then holds the reverse-pointer record of the
    host and the address. *)
Theorem built_address_record_gets_ptr :
  forall (lib : IPLib) (c : pyclass) (args : list pyobj)
         (kwargs : list (string * pyobj)) (r : pyobj),
    c = CARecord \/ c = CAAAARecord ->
    construct c args kwargs = Ok r ->
    exists a ip,
      getattr_address r = Some a /\ ip_address a = Ok ip
      /\ forall (h rp : string) (pool : list pyobj),
           wants_ptr r = true -> reverse_pointer ip = Some rp ->
           exists pool',
             synth_ptr (PStr h) r pool = (Ok tt, pool')
             /\ list_contains pool' (ptr_of (h, rp)) = true.
Proof.
  intros lib c args kwargs r Hc H.
  destruct (built_address_record c args kwargs r Hc H) as [a [ip [Ha Hip]]].
  exists a, ip. split; [exact Ha|]. split; [exact Hip|].
  intros h rp pool Hw Hrp. unfold synth_ptr. rewrite Hw, Ha, construct_ptr, Hip, Hrp.
  unfold bind at 1. unfold lift at 1. unfold bind at 1. unfold get at 1.
  destruct (list_contains pool (ptr_of (h, rp))) eqn:E; cbn [negb].
  - exists pool. split; [reflexivity|exact E].
  - exists (pool ++ [ptr_of (h, rp)]). split; [reflexivity|].
    unfold list_contains. rewrite existsb_app. cbn [existsb].
    assert (Hrefl : py_eq (ptr_of (h, rp)) (ptr_of (h, rp)) = true)
      by now apply py_eq_ptr_of.
    rewrite Hrefl. now rewrite orb_true_r.
Qed.

Lemma built_address_record_gets_ptr_witness :
  ((CARecord = CARecord \/ CARecord = CAAAARecord)
   /\ construct (lib := Ipaddress.lib) CARecord []
        [("address", PStr "93.184.216.34"); ("ptr_record", PBool true)]
      = Ok sample_built_record)
  /\ exists a ip,
       getattr_address sample_built_record = Some a
       /\ ip_address (lib := Ipaddress.lib) a = Ok ip
       /\ forall (h rp : string) (pool : list pyobj),
            wants_ptr sample_built_record = true ->
            reverse_pointer (IPLib := Ipaddress.lib) ip = Some rp ->
            exists pool',
              synth_ptr (lib := Ipaddress.lib) (PStr h) sample_built_record pool
              = (Ok tt, pool')
              /\ list_contains pool' (ptr_of (h, rp)) = true.
Proof.
  split; [split; [left; reflexivity|reflexivity]|].
  apply (built_address_record_gets_ptr Ipaddress.lib CARecord []
           [("address", PStr "93.184.216.34"); ("ptr_record", PBool true)]
           sample_built_record).
  - left; reflexivity.
  - reflexivity.
Defined.

(** ** The exceptions that the loaders end with *)

Ltac in_list := cbn [In]; repeat (first [now left | right]).

Section ErrorLists.
Context {lib : IPLib}.

Lemma build_record_errors (record : pyobj) (e : exn) :
  build_record record = Err e ->
  In e [Raised KeyError Builtin; Raised TypeError Builtin;
        Raised ValueError (Text "record type undefined"); Raised RuntimeError Builtin].
Proof.
  unfold build_record.
  destruct (subscript record "type") as [type|e'] eqn:Hs; cbn [rbind].
  - destruct (resolve_type type) as [m|e'] eqn:Hr; cbn [rbind].
    + replace (isinstance (PEnum m) CPTRRecord) with false by reflexivity.
      rewrite select_class_of_member.
      destruct record; try discriminate Hs.
      destruct m; cbn [rbind];
        try (rewrite construct_without_payload by (cbn; tauto)); intros [= <-]; in_list.
    + intros [= <-]. unfold resolve_type in Hr.
      destruct (hashable type); cbn [negb] in Hr; [|injection Hr as <-; in_list].
      destruct type; try (injection Hr as <-; in_list).
      destruct (RecordType.getitem s); [discriminate Hr|injection Hr as <-; in_list].
  - intros [= <-]. unfold subscript in Hs.
    destruct record; try (injection Hs as <-; in_list).
    destruct (dict_lookup "type" items); [discriminate Hs|injection Hs as <-; in_list].
Qed.

Lemma load_records_errors (records host : pyobj) (pool : list pyobj) :
  exists e,
    load_records records host pool = (Err e, pool)
    /\ In e [Raised UnboundLocalError Builtin; Raised KeyError Builtin;
             Raised TypeError Builtin; Raised ValueError (Text "record type undefined");
             Raised RuntimeError Builtin].
Proof.
  destruct (iterate records) as [items|e] eqn:Hi.
  - destruct items as [|record rest].
    + exists (Raised UnboundLocalError Builtin). split; [|in_list].
      unfold load_records. now rewrite Hi.
    + destruct (build_record_raises record) as [e He]. exists e. split.
      * unfold load_records. rewrite Hi. unfold bind at 1. unfold lift at 1.
        cbn [load_records_loop]. unfold bind at 1. unfold bind at 1. unfold lift.
        now rewrite He.
      * right. now apply (build_record_errors record).
  - exists e. split; [unfold load_records; now rewrite Hi|].
    destruct records; try discriminate Hi; injection Hi as <-; in_list.
Qed.

Lemma py_add_errors (a b : pyobj) (e : exn) :
  py_add a b = Err e -> e = Raised TypeError Builtin \/ e = Raised ValueError Builtin.
Proof.
  unfold py_add.
  destruct a as [| | | | | | |[n|n sc]| | | | | | | |], b; cbn [int_value];
    try (intros [= <-]; now left);
    try discriminate;
    try (destruct (IPv4Address _); [discriminate|intros [= <-]; now right]);
    try (destruct (IPv6Address _) as [[m scope]|]; [discriminate|intros [= <-]; now right]).
Qed.

Lemma host_errors (depth : nat) (z : pyobj) (e : exn) :
  host depth z = Err e ->
  In e [Raised RecursionError Builtin; Raised AttributeError Builtin;
        Raised TypeError Builtin; Raised ValueError Builtin].
Proof.
  revert depth.
  induction z; intros depth H; try (injection H as <-; in_list); [discriminate H|].
  destruct depth as [|depth]; [injection H as <-; in_list|].
  cbn [host] in H.
  assert (Hadd : forall a b, py_add a b = Err e ->
                 In e [Raised RecursionError Builtin; Raised AttributeError Builtin;
                       Raised TypeError Builtin; Raised ValueError Builtin]).
  { intros a b Hab. destruct (py_add_errors a b e Hab) as [-> | ->]; in_list. }
  destruct (truthy z6); cbn [negb] in H.
  - destruct (host depth z6) as [right|e'] eqn:Hr; cbn [rbind] in H.
    + now apply (Hadd _ _ H).
    + injection H as <-. now apply (IHz6 depth).
  - cbn [rbind] in H. now apply (Hadd _ _ H).
Qed.

Lemma load_zone_errors (depth : nat) (zone parent_zone : pyobj) (p : pools) :
  exists e,
    load_zone depth zone parent_zone p = (Err e, p)
    /\ In e [Raised RecursionError Builtin; Raised AttributeError Builtin;
             Raised Exception (Text "namespace should be an string");
             Raised Exception (Text "subzone cant be root");
             Raised Exception (Text "root cant have a record");
             Raised UnboundLocalError Builtin; Raised KeyError Builtin;
             Raised TypeError Builtin; Raised ValueError (Text "record type undefined");
             Raised RuntimeError Builtin; Raised ValueError Builtin].
Proof.
  destruct depth as [|depth]; [eexists; split; [reflexivity|in_list]|].
  cbn [load_zone].
  destruct (method_get zone "namespace" PNone) as [ns|e] eqn:Hns.
  2:{ exists e. split; [reflexivity|].
      destruct zone; try (injection Hns as <-; in_list).
      cbn in Hns. destruct (dict_lookup "namespace" items); discriminate Hns. }
  assert (Hrec : forall d, exists v, method_get zone "records" d = Ok v).
  { intros d. destruct zone; try discriminate Hns. cbn.
    destruct (dict_lookup "records" items); eauto. }
  assert (Hload : forall raw h (k : pyobj -> M pools pyobj),
             exists e,
               bind (zoom ptr_records set_ptr_records (load_records raw (PStr h))) k p
               = (Err e, p)
               /\ In e [Raised RecursionError Builtin; Raised AttributeError Builtin;
                        Raised Exception (Text "namespace should be an string");
                        Raised Exception (Text "subzone cant be root");
                        Raised Exception (Text "root cant have a record");
                        Raised UnboundLocalError Builtin; Raised KeyError Builtin;
                        Raised TypeError Builtin;
                        Raised ValueError (Text "record type undefined");
                        Raised RuntimeError Builtin; Raised ValueError Builtin]).
  { intros raw h k.
    destruct (load_records_errors raw (PStr h) (ptr_records p)) as [e [He Hin]].
    exists e. split.
    - apply bind_raises. unfold zoom. rewrite He. now rewrite set_ptr_records_same.
    - cbn [In] in Hin. decompose [or] Hin; subst; try contradiction; in_list. }
  unfold bind at 1. unfold lift at 1.
  destruct (py_or ns PNone) eqn:Hor;
    try (unfold bind at 1; unfold raise at 1; eexists; split; [reflexivity|in_list]).
  - unfold bind at 1. unfold ret at 1. cbn [opt_str truthy andb].
    rewrite andb_false_r.
    destruct (truthy parent_zone) eqn:Hp; cbn [negb andb].
    + unfold bind at 1. unfold ret at 1.
      destruct (Hrec PNone) as [recs Hrecs]. rewrite Hrecs.
      unfold bind at 1. unfold lift at 1.
      destruct (truthy recs); cbn [negb andb]; [eexists; split; [reflexivity|in_list]|].
      unfold bind at 1. unfold lift at 1. cbn [zone_host].
      destruct (Hrec (PList [])) as [raw Hraw]. rewrite Hraw.
      unfold bind at 1. unfold lift at 1. apply Hload.
    + eexists; split; [reflexivity|in_list].
  - destruct (py_or_none_cases ns) as [H|[H Ht]]; [congruence|].
    rewrite H in Hor. subst ns.
    unfold bind at 1. unfold ret at 1. cbn [opt_str]. rewrite Ht.
    destruct (truthy parent_zone) eqn:Hp; cbn [negb andb];
      [|eexists; split; [reflexivity|in_list]].
    unfold bind at 1. unfold ret at 1.
    destruct (Hrec PNone) as [recs Hrecs]. rewrite Hrecs.
    unfold bind at 1. unfold lift at 1.
    destruct (zone_host depth (Some s) parent_zone) as [h|e] eqn:Hz.
    + unfold bind at 1. unfold lift at 1.
      destruct (Hrec (PList [])) as [raw Hraw]. rewrite Hraw.
      unfold bind at 1. unfold lift at 1. apply Hload.
    + exists e. split; [reflexivity|]. unfold zone_host in Hz. rewrite Ht in Hz.
      cbn [negb] in Hz.
      destruct (host depth parent_zone) as [h|e'] eqn:Hh; [discriminate Hz|].
      cbn [rbind] in Hz. injection Hz as <-.
      pose proof (host_errors _ _ _ Hh) as Hin.
      cbn [In] in Hin. decompose [or] Hin; subst; try contradiction; in_list.
Qed.

End ErrorLists.

(** X25.  The exceptions that [load_records] can end with, on any value
    given as the records: [UnboundLocalError], [KeyError], [TypeError],
    [RuntimeError] and [ValueError("record type undefined")].  Of the kinds
    of the specification it produces [UnknownRecordType] and no other: the
    exception of line 19 and the errors of the constructors (address,
    hostname, text, TTL) never come out of it. *)
Theorem load_records_error_list :
  forall (lib : IPLib) (records host : pyobj) (pool : list pyobj),
    exists e,
      load_records records host pool = (Err e, pool)
      /\ In e [Raised UnboundLocalError Builtin; Raised KeyError Builtin;
               Raised TypeError Builtin; Raised ValueError (Text "record type undefined");
               Raised RuntimeError Builtin]
      /\ (error_kind e = None \/ error_kind e = Some UnknownRecordType).
Proof.
  intros lib records host pool.
  destruct (load_records_errors records host pool) as [e [He Hin]].
  exists e. split; [exact He|]. split; [exact Hin|].
  cbn [In] in Hin. decompose [or] Hin; subst; try contradiction;
    first [now left | now right].
Qed.

(** X26.  The exceptions that [load_zone] can end with, on any mapping, parent
    and shared lists: those of [load_records], [RecursionError],
    [AttributeError], the exceptions of lines 44, 47 and 53, and the
    [AddressValueError] of the [ipaddress] library, which [parent_zone.host]
    raises at line 55 when a zone above holds an address object as its label
    and adds it to an integer past the range.  The exception of line 50,
    "root identifier cant find in head zone namespace", is raised on no
    input. *)
Theorem load_zone_error_list :
  forall (lib : IPLib) (depth : nat) (zone parent_zone : pyobj) (p : pools),
    exists e,
      load_zone depth zone parent_zone p = (Err e, p)
      /\ In e [Raised RecursionError Builtin; Raised AttributeError Builtin;
               Raised Exception (Text "namespace should be an string");
               Raised Exception (Text "subzone cant be root");
               Raised Exception (Text "root cant have a record");
               Raised UnboundLocalError Builtin; Raised KeyError Builtin;
               Raised TypeError Builtin; Raised ValueError (Text "record type undefined");
               Raised RuntimeError Builtin; Raised ValueError Builtin]
      /\ e <> Raised Exception (Text "root identifier cant find in head zone namespace").
Proof.
  intros lib depth zone parent_zone p.
  destruct (load_zone_errors depth zone parent_zone p) as [e [He Hin]].
  exists e. split; [exact He|]. split; [exact Hin|].
  cbn [In] in Hin. decompose [or] Hin; subst; try contradiction; discriminate.
Qed.
